(** * python-bootstrap: a shallow embedding of [scripts/bootstrap.py]

    The script scaffolds a Python project: it derives a package name from the
    project name, renders nine files from templates through [create_file] and
    then drives six external commands through [run].

    Conventions of the embedding.

    - A Python [str] is a [string]; a character of the string stands for one
      code point in the range 0..255 (ASCII and Latin-1), so [str.lower] and
      [str.isspace] are written out for exactly that range.
    - [textwrap.dedent] and the [pathlib] operations are library code; they
      are written here after CPython 3.12 ([Lib/textwrap.py],
      [Lib/pathlib.py], POSIX flavour).
    - The file system and the child processes are the outside world: a run is
      a function of a world state, and it produces the trace of everything it
      asked of the world together with the way it ended.  Any request to the
      file system may be refused with an exception, and so may the start of
      a command; printing always succeeds.
    - The printed lines are kept as structured messages, one form per
      [print] call, since their fixed text holds characters outside the
      range of the strings.
    - The entry point is embedded from the parsed arguments on: the
      parsing of the command line is not, and the resolution of the target
      directory is a parameter of [main]. *)

From Stdlib Require Import String Ascii List Bool ZArith.
Import ListNotations.

Local Open Scope list_scope.
Local Open Scope string_scope.

(** ** Python strings *)

Module PyStr.

(** Characters that the templates need and that a literal cannot hold. *)
Definition newline : ascii := ascii_of_nat 10.
Definition tab : ascii := ascii_of_nat 9.
Definition quote : ascii := ascii_of_nat 34.

Definition nl : string := String newline "".
Definition dq : string := String quote "".

Fixpoint map_chars (f : ascii -> ascii) (s : string) : string :=
  match s with
  | "" => ""
  | String c s' => String (f c) (map_chars f s')
  end.

Fixpoint all_chars (p : ascii -> bool) (s : string) : bool :=
  match s with
  | "" => true
  | String c s' => p c && all_chars p s'
  end.

Definition in_range (lo hi n : nat) : bool :=
  (lo <=? n)%nat && (n <=? hi)%nat.

(** [str.lower] on one code point below 256: the upper-case letters are
    A..Z and U+00C0..U+00DE without the multiplication sign U+00D7; each
    has its lower-case partner 32 positions later. *)
Definition is_upper (c : ascii) : bool :=
  let n := nat_of_ascii c in
  in_range 65 90 n || (in_range 192 222 n && negb (n =? 215)%nat).

Definition lower_char (c : ascii) : ascii :=
  if is_upper c then ascii_of_nat (nat_of_ascii c + 32) else c.

(** [s.lower()] *)
Definition lower (s : string) : string := map_chars lower_char s.

(** [s.replace(old, new)] for a non-empty [old]: scan from the left, and on
    a match emit [new] and skip the rest of the occurrence ([skip] counts
    the characters of a match still to be passed over). *)
Fixpoint replace_from (old new : string) (skip : nat) (s : string) : string :=
  match s with
  | "" => ""
  | String c s' =>
      match skip with
      | S k => replace_from old new k s'
      | O =>
          if prefix old s
          then new ++ replace_from old new (String.length old - 1) s'
          else String c (replace_from old new 0 s')
      end
  end.

(** With an empty [old], Python puts [new] before every character and at
    the end. *)
Fixpoint interleave (new s : string) : string :=
  match s with
  | "" => ""
  | String c s' => String c (new ++ interleave new s')
  end.

(** [s.replace(old, new)] *)
Definition replace (old new s : string) : string :=
  match old with
  | "" => new ++ interleave new s
  | String _ _ => replace_from old new 0 s
  end.

(** [s.split(sep)] for a one-character separator; the result is never
    empty, [''.split(sep)] is [['']]. *)
Fixpoint split_on (sep : ascii) (s : string) : list string :=
  match s with
  | "" => [""]
  | String c s' =>
      if Ascii.eqb c sep then "" :: split_on sep s'
      else match split_on sep s' with
           | [] => [String c ""]
           | l :: ls => String c l :: ls
           end
  end.

(** [sep.join(ls)] *)
Definition join (sep : string) (ls : list string) : string :=
  String.concat sep ls.

(** [str.isspace] on one code point below 256. *)
Definition isspace_char (c : ascii) : bool :=
  let n := nat_of_ascii c in
  in_range 9 13 n || in_range 28 32 n || (n =? 133)%nat || (n =? 160)%nat.

(** [s.lstrip()] *)
Fixpoint lstrip (s : string) : string :=
  match s with
  | "" => ""
  | String c s' => if isspace_char c then lstrip s' else s
  end.

(** [s.startswith(p)] is [prefix p s] of the standard library. *)
Definition startswith (s p : string) : bool := prefix p s.

Fixpoint drop (n : nat) (s : string) : string :=
  match n, s with
  | O, _ => s
  | S _, "" => ""
  | S k, String _ s' => drop k s'
  end.

End PyStr.

Import PyStr.

(** ** The package name (bootstrap.py, line 31) *)

(** [project_name.replace("-", "_").lower()] *)
Definition package_name (project_name : string) : string :=
  lower (replace "-" "_" project_name).

(** ** [textwrap.dedent] (CPython 3.12, Lib/textwrap.py) *)

Module Textwrap.

Definition is_blank_char (c : ascii) : bool :=
  Ascii.eqb c " " || Ascii.eqb c tab.

(** [_whitespace_only_re]: a line made of spaces and tabs only; such a
    line is replaced by the empty line. *)
Definition whitespace_only (l : string) : bool := all_chars is_blank_char l.

Definition blank_out (l : string) : string :=
  if whitespace_only l then "" else l.

(** [_leading_whitespace_re]: the run of spaces and tabs at the start of
    a line that holds something else. *)
Fixpoint leading_whitespace (l : string) : string :=
  match l with
  | "" => ""
  | String c l' =>
      if is_blank_char c then String c (leading_whitespace l') else ""
  end.

Fixpoint common_prefix (a b : string) : string :=
  match a, b with
  | String x a', String y b' =>
      if Ascii.eqb x y then String x (common_prefix a' b') else ""
  | _, _ => ""
  end.

(** One turn of the loop [for indent in indents]. *)
Definition update_margin (margin : option string) (indent : string)
  : option string :=
  match margin with
  | None => Some indent
  | Some m =>
      if startswith indent m then Some m
      else if startswith m indent then Some indent
      else Some (common_prefix m indent)
  end.

(** [re.sub(r'(?m)^' + margin, '', text)] on one line. *)
Definition remove_margin (margin l : string) : string :=
  if startswith l margin then drop (String.length margin) l else l.

Definition has_text (l : string) : bool := negb (l =? "").

Definition dedent (text : string) : string :=
  let lines := map blank_out (split_on newline text) in
  let indents := map leading_whitespace (filter has_text lines) in
  match fold_left update_margin indents None with
  | Some (String c m) => join nl (map (remove_margin (String c m)) lines)
  | _ => join nl lines
  end.

End Textwrap.

Import Textwrap.

(** ** [pathlib] paths (POSIX flavour) *)

Module Pathlib.

(** A path is the list of its components below the root.  [bootstrap] is
    called with a resolved, hence absolute, directory. *)
Definition Path : Type := list string.

(** The components of one joined segment: split at the slashes, empty
    components and [.] dropped. *)
Definition keep_part (c : string) : bool := negb ((c =? "") || (c =? ".")).

Definition parse_parts (segment : string) : list string :=
  filter keep_part (split_on "/" segment).

(** [path / segment]: an absolute segment replaces the path. *)
Definition truediv (p : Path) (segment : string) : Path :=
  if startswith segment "/" then parse_parts segment
  else (p ++ parse_parts segment)%list.

(** [path.parent]; the root is its own parent. *)
Definition parent (p : Path) : Path := removelast p.

Definition path_eqb (p q : Path) : bool :=
  if list_eq_dec string_dec p q then true else false.

End Pathlib.

Import Pathlib.

Declare Scope path_scope.
Delimit Scope path_scope with path.
Notation "p / segment" := (truediv p segment) : path_scope.
Local Open Scope path_scope.

(** ** The templates of [bootstrap]

    Each definition is the value of the (f-)string literal handed to
    [create_file]: one list element per source line, joined by newlines.  The
    backslash after the opening quotes removes the first line break, and the
    last element is the indentation in front of the closing quotes. *)

Module Templates.

Definition text (lines : list string) : string := join nl lines.

(** The indentation of the template text inside [bootstrap]. *)
Definition margin : string := "        ".

Section Placeholders.

Variables project_name description python_version package_name : string.

(** bootstrap.py, lines 43-99 *)
Definition pyproject_toml_lines : list string :=
  [
    "        [project]";
    "        name = " ++ dq ++ project_name ++ dq;
    "        version = " ++ dq ++ "0.1.0" ++ dq;
    "        description = " ++ dq ++ description ++ dq;
    "        readme = " ++ dq ++ "README.md" ++ dq;
    "        requires-python = " ++ dq ++ ">=" ++ python_version ++ dq;
    "        dependencies = []";
    "";
    "        [project.optional-dependencies]";
    "        dev = [";
    "            " ++ dq ++ "pytest>=8.0" ++ dq ++ ",";
    "            " ++ dq ++ "ruff>=0.8" ++ dq ++ ",";
    "            " ++ dq ++ "pyright>=1.1" ++ dq ++ ",";
    "            " ++ dq ++ "pre-commit>=4.0" ++ dq ++ ",";
    "        ]";
    "";
    "        [build-system]";
    "        requires = [" ++ dq ++ "hatchling" ++ dq ++ "]";
    "        build-backend = " ++ dq ++ "hatchling.build" ++ dq;
    "";
    "        [tool.hatch.build.targets.wheel]";
    "        packages = [" ++ dq ++ "src/" ++ package_name ++ dq ++ "]";
    "";
    "        [tool.ruff]";
    "        target-version = " ++ dq ++ "py" ++ (replace "." "" python_version) ++ dq;
    "        src = [" ++ dq ++ "src" ++ dq ++ ", " ++ dq ++ "tests" ++ dq ++ "]";
    "        line-length = 88";
    "";
    "        [tool.ruff.lint]";
    "        select = [";
    "            " ++ dq ++ "E" ++ dq ++ ",    # pycodestyle errors";
    "            " ++ dq ++ "W" ++ dq ++ ",    # pycodestyle warnings";
    "            " ++ dq ++ "F" ++ dq ++ ",    # pyflakes";
    "            " ++ dq ++ "I" ++ dq ++ ",    # isort";
    "            " ++ dq ++ "N" ++ dq ++ ",    # pep8-naming";
    "            " ++ dq ++ "UP" ++ dq ++ ",   # pyupgrade";
    "            " ++ dq ++ "B" ++ dq ++ ",    # flake8-bugbear";
    "            " ++ dq ++ "SIM" ++ dq ++ ",  # flake8-simplify";
    "            " ++ dq ++ "TCH" ++ dq ++ ",  # flake8-type-checking";
    "            " ++ dq ++ "RUF" ++ dq ++ ",  # ruff-specific rules";
    "        ]";
    "";
    "        [tool.ruff.lint.isort]";
    "        known-first-party = [" ++ dq ++ package_name ++ dq ++ "]";
    "";
    "        [tool.pyright]";
    "        pythonVersion = " ++ dq ++ python_version ++ dq;
    "        typeCheckingMode = " ++ dq ++ "strict" ++ dq;
    "        include = [" ++ dq ++ "src" ++ dq ++ ", " ++ dq ++ "tests" ++ dq ++ "]";
    "        venvPath = " ++ dq ++ "." ++ dq;
    "        venv = " ++ dq ++ ".venv" ++ dq;
    "";
    "        [tool.pytest.ini_options]";
    "        testpaths = [" ++ dq ++ "tests" ++ dq ++ "]";
    "        pythonpath = [" ++ dq ++ "src" ++ dq ++ "]";
    "        " ].

Definition pyproject_toml : string := text pyproject_toml_lines.

(** bootstrap.py, lines 105-107 *)
Definition src_init_py_lines : list string :=
  [
    "        " ++ dq ++ dq ++ dq ++ project_name ++ ": " ++ description ++ "." ++ dq ++ dq ++ dq;
    "        " ].

Definition src_init_py : string := text src_init_py_lines.

(** bootstrap.py, lines 123-132 *)
Definition test_module_py_lines : list string :=
  [
    "        " ++ dq ++ dq ++ dq ++ "Tests for " ++ package_name ++ "." ++ dq ++ dq ++ dq;
    "";
    "        from " ++ package_name ++ " import __doc__";
    "";
    "";
    "        def test_package_has_docstring() -> None:";
    "            " ++ dq ++ dq ++ dq ++ "Verify package is importable and has a docstring." ++ dq ++ dq ++ dq;
    "            assert __doc__ is not None";
    "        " ].

Definition test_module_py : string := text test_module_py_lines.

(** bootstrap.py, lines 138-155 *)
Definition pre_commit_config_yaml_lines : list string :=
  [
    "        repos:";
    "          - repo: https://github.com/astral-sh/ruff-pre-commit";
    "            rev: v0.8.6";
    "            hooks:";
    "              - id: ruff";
    "                args: [--fix]";
    "              - id: ruff-format";
    "";
    "          - repo: local";
    "            hooks:";
    "              - id: pyright";
    "                name: pyright";
    "                entry: uv run pyright";
    "                language: system";
    "                types: [python]";
    "                pass_filenames: false";
    "        " ].

Definition pre_commit_config_yaml : string := text pre_commit_config_yaml_lines.

(** bootstrap.py, lines 161-196 *)
Definition ci_yml_lines : list string :=
  [
    "        name: CI";
    "";
    "        on:";
    "          push:";
    "            branches: [main]";
    "          pull_request:";
    "            branches: [main]";
    "";
    "        jobs:";
    "          check:";
    "            runs-on: ubuntu-latest";
    "            steps:";
    "              - uses: actions/checkout@v4";
    "";
    "              - name: Install uv";
    "                uses: astral-sh/setup-uv@v4";
    "";
    "              - name: Set up Python";
    "                run: uv python install " ++ python_version;
    "";
    "              - name: Install dependencies";
    "                run: uv sync --all-extras";
    "";
    "              - name: Lint (ruff)";
    "                run: uv run ruff check src tests";
    "";
    "              - name: Format check (ruff)";
    "                run: uv run ruff format --check src tests";
    "";
    "              - name: Type check (pyright)";
    "                run: uv run pyright";
    "";
    "              - name: Test (pytest)";
    "                run: uv run pytest";
    "        " ].

Definition ci_yml : string := text ci_yml_lines.

(** bootstrap.py, lines 202-216 *)
Definition gitignore_lines : list string :=
  [
    "        __pycache__/";
    "        *.py[cod]";
    "        *$py.class";
    "        *.egg-info/";
    "        dist/";
    "        build/";
    "        .venv/";
    "        .mypy_cache/";
    "        .pyright/";
    "        .ruff_cache/";
    "        .pytest_cache/";
    "        .coverage";
    "        htmlcov/";
    "        " ].

Definition gitignore : string := text gitignore_lines.

(** bootstrap.py, lines 222-246 *)
Definition readme_md_lines : list string :=
  [
    "        # " ++ project_name;
    "";
    "        " ++ description;
    "";
    "        ## Development";
    "";
    "        ```bash";
    "        # Install dependencies";
    "        uv sync --all-extras";
    "";
    "        # Run tests";
    "        uv run pytest";
    "";
    "        # Lint and format";
    "        uv run ruff check src tests";
    "        uv run ruff format src tests";
    "";
    "        # Type check";
    "        uv run pyright";
    "";
    "        # Install pre-commit hooks";
    "        uv run pre-commit install";
    "        ```";
    "        " ].

Definition readme_md : string := text readme_md_lines.

End Placeholders.

End Templates.

(** ** The outside world and the trace of a run *)

(** An exception that reaches the top of the script ([OSError] and the
    like); [kind] names its class. *)
Inductive exception : Type :=
| PyError (kind : string).

(** [subprocess.CompletedProcess] with captured text streams. *)
Record CompletedProcess : Type := {
  returncode : Z;
  stdout : string;
  stderr : string
}.

(** The lines the script prints, one constructor per [print] call of the
    source; the arguments are the interpolated values. *)
Inductive message : Type :=
| MsgBootstrapping (project_name : string)  (* line 33 *)
| MsgDirectory (project_dir : Path)         (* line 34 *)
| MsgPackage (package : string)             (* line 35 *)
| MsgPython (python_version : string)       (* line 36 *)
| MsgCreated (path : Path)                  (* line 16 *)
| MsgCommandFailed (command_line : string)  (* line 23 *)
| MsgStderr (captured : string)             (* line 24 *)
| MsgInitialising                           (* line 250 *)
| MsgPassed (what : string)                 (* lines 252-269 *)
| MsgRunningChecks                          (* line 258 *)
| MsgReady (project_name : string)          (* line 271 *)
| MsgCd (project_dir : Path)                (* line 272 *)
| MsgNextSteps.                             (* line 273 *)

(** What a run asks of the world, with the world's answer. *)
Inductive event : Type :=
| Print (m : message)
| Mkdir (p : Path) (answer : option exception)
| WriteText (p : Path) (data : string) (answer : option exception)
| Spawn (cmd : list string) (cwd : Path)
        (answer : exception + CompletedProcess).

(** How a computation ends: it returns, calls [sys.exit], or lets an
    exception escape. *)
Inductive result (A : Type) : Type :=
| Ok (a : A)
| Exit (code : Z)
| Raise (e : exception).

Arguments Ok {A} a.
Arguments Exit {A} code.
Arguments Raise {A} e.

(** The exit status of the interpreter for each way of ending. *)
Definition exit_status {A : Type} (r : result A) : Z :=
  match r with
  | Ok _ => 0
  | Exit code => code
  | Raise _ => 1
  end.

(** The world: a state and its answers to the three operations the script
    uses.  [path_mkdir] is [Path.mkdir(parents=True, exist_ok=True)]. *)
Record world (W : Type) : Type := {
  path_mkdir : Path -> W -> option exception * W;
  path_write_text : Path -> string -> W -> option exception * W;
  subprocess_run :
    list string -> Path -> W -> (exception + CompletedProcess) * W
}.

Arguments path_mkdir {W} _ _ _.
Arguments path_write_text {W} _ _ _ _.
Arguments subprocess_run {W} _ _ _ _.

Record Run (W A : Type) : Type := {
  trace : list event;
  final : W;
  outcome : result A
}.

Arguments trace {W A} _.
Arguments final {W A} _.
Arguments outcome {W A} _.

Definition M (W A : Type) : Type := W -> Run W A.

Definition ret {W A : Type} (a : A) : M W A :=
  fun w => {| trace := []; final := w; outcome := Ok a |}.

Definition bind {W A B : Type} (m : M W A) (f : A -> M W B) : M W B :=
  fun w =>
    let r := m w in
    match outcome r with
    | Ok a =>
        let r' := f a (final r) in
        {| trace := (trace r ++ trace r')%list;
           final := final r';
           outcome := outcome r' |}
    | Exit code =>
        {| trace := trace r; final := final r; outcome := Exit code |}
    | Raise e =>
        {| trace := trace r; final := final r; outcome := Raise e |}
    end.

Notation "x <- m ;; k" := (bind m (fun x => k))
  (at level 61, m at next level, right associativity).
Notation "m ;; k" := (bind m (fun _ => k))
  (at level 61, right associativity).

(** ** The script *)

Section Script.

Context {W : Type} (env : world W).

Definition print (m : message) : M W unit :=
  fun w => {| trace := [Print m]; final := w; outcome := Ok tt |}.

Definition mkdir (p : Path) : M W unit :=
  fun w =>
    let '(answer, w') := path_mkdir env p w in
    {| trace := [Mkdir p answer];
       final := w';
       outcome := match answer with None => Ok tt | Some e => Raise e end |}.

Definition write_text (p : Path) (data : string) : M W unit :=
  fun w =>
    let '(answer, w') := path_write_text env p data w in
    {| trace := [WriteText p data answer];
       final := w';
       outcome := match answer with None => Ok tt | Some e => Raise e end |}.

Definition subprocess (cmd : list string) (cwd : Path)
  : M W CompletedProcess :=
  fun w =>
    let '(answer, w') := subprocess_run env cmd cwd w in
    {| trace := [Spawn cmd cwd answer];
       final := w';
       outcome := match answer with inl e => Raise e | inr p => Ok p end |}.

Definition sys_exit {A : Type} (code : Z) : M W A :=
  fun w => {| trace := []; final := w; outcome := Exit code |}.

(** bootstrap.py, lines 12-16 *)
Definition create_file (path : Path) (content : string) : M W unit :=
  mkdir (parent path) ;;
  write_text path (lstrip (dedent content)) ;;
  print (MsgCreated path).

(** bootstrap.py, lines 19-25 *)
Definition run (cmd : list string) (cwd : Path) : M W unit :=
  result <- subprocess cmd cwd ;;
  if negb (returncode result =? 0)%Z then
    print (MsgCommandFailed (join " " cmd)) ;;
    print (MsgStderr (stderr result)) ;;
    sys_exit 1
  else ret tt.

(** bootstrap.py, lines 28-273 *)
Definition bootstrap (project_dir : Path)
           (project_name python_version description : string) : M W unit :=
  let package_name := package_name project_name in
  print (MsgBootstrapping project_name) ;;
  print (MsgDirectory project_dir) ;;
  print (MsgPackage package_name) ;;
  print (MsgPython python_version) ;;
  mkdir project_dir ;;
  create_file (project_dir / "pyproject.toml")
    (Templates.pyproject_toml project_name description python_version
       package_name) ;;
  create_file (project_dir / "src" / package_name / "__init__.py")
    (Templates.src_init_py project_name description) ;;
  create_file (project_dir / "src" / package_name / "py.typed") "" ;;
  create_file (project_dir / "tests" / "__init__.py") "" ;;
  create_file (project_dir / "tests" / ("test_" ++ package_name ++ ".py"))
    (Templates.test_module_py package_name) ;;
  create_file (project_dir / ".pre-commit-config.yaml")
    Templates.pre_commit_config_yaml ;;
  create_file (project_dir / ".github" / "workflows" / "ci.yml")
    (Templates.ci_yml python_version) ;;
  create_file (project_dir / ".gitignore") Templates.gitignore ;;
  create_file (project_dir / "README.md")
    (Templates.readme_md project_name description) ;;
  print MsgInitialising ;;
  run ["uv"; "venv"; "--python"; python_version] project_dir ;;
  print (MsgPassed "Created .venv") ;;
  run ["uv"; "sync"; "--all-extras"] project_dir ;;
  print (MsgPassed "Installed dependencies") ;;
  print MsgRunningChecks ;;
  run ["uv"; "run"; "ruff"; "check"; "src"; "tests"] project_dir ;;
  print (MsgPassed "ruff lint passed") ;;
  run ["uv"; "run"; "ruff"; "format"; "--check"; "src"; "tests"]
    project_dir ;;
  print (MsgPassed "ruff format passed") ;;
  run ["uv"; "run"; "pyright"] project_dir ;;
  print (MsgPassed "pyright passed") ;;
  run ["uv"; "run"; "pytest"] project_dir ;;
  print (MsgPassed "pytest passed") ;;
  print (MsgReady project_name) ;;
  print (MsgCd project_dir) ;;
  print MsgNextSteps.

End Script.

(** ** Observations on a trace *)

(** The file writes a run attempted, in order. *)
Fixpoint written (tr : list event) : list (Path * string) :=
  match tr with
  | [] => []
  | WriteText p data _ :: tr' => (p, data) :: written tr'
  | _ :: tr' => written tr'
  end.

(** The commands a run started, in order. *)
Fixpoint spawned (tr : list event) : list (list string) :=
  match tr with
  | [] => []
  | Spawn cmd _ _ :: tr' => cmd :: spawned tr'
  | _ :: tr' => spawned tr'
  end.

(** The lines a run printed, in order. *)
Fixpoint printed (tr : list event) : list message :=
  match tr with
  | [] => []
  | Print m :: tr' => m :: printed tr'
  | _ :: tr' => printed tr'
  end.

(** No file-system request of the trace was refused. *)
Definition fs_granted (e : event) : bool :=
  match e with
  | Mkdir _ (Some _) | WriteText _ _ (Some _) => false
  | _ => true
  end.

(** ** The script as a plan of steps

    [bootstrap] is straight-line code: a fixed list of steps, each of which
    either lets the next one run or ends the run.  [plan] is that list and
    [follows] says which traces a plan allows, whatever the world answers. *)

Inductive step : Type :=
| DoPrint (m : message)
| DoMkdir (p : Path)
| DoCreate (path : Path) (content : string)
| DoRun (cmd : list string) (cwd : Path).

Definition do_step {W : Type} (env : world W) (s : step) : M W unit :=
  match s with
  | DoPrint m => print m
  | DoMkdir p => mkdir env p
  | DoCreate path content => create_file env path content
  | DoRun cmd cwd => run env cmd cwd
  end.

Fixpoint steps_then {W : Type} (env : world W) (steps : list step)
         (k : M W unit) : M W unit :=
  match steps with
  | [] => k
  | s :: rest => do_step env s ;; steps_then env rest k
  end.

Section Plan.

Variable project_dir : Path.
Variables project_name python_version description : string.

(** The nine [create_file] calls: target path and template text. *)
Definition templates : list (Path * string) :=
  let package_name := package_name project_name in
  [ (project_dir / "pyproject.toml",
     Templates.pyproject_toml project_name description python_version
       package_name);
    (project_dir / "src" / package_name / "__init__.py",
     Templates.src_init_py project_name description);
    (project_dir / "src" / package_name / "py.typed", "");
    (project_dir / "tests" / "__init__.py", "");
    (project_dir / "tests" / ("test_" ++ package_name ++ ".py"),
     Templates.test_module_py package_name);
    (project_dir / ".pre-commit-config.yaml",
     Templates.pre_commit_config_yaml);
    (project_dir / ".github" / "workflows" / "ci.yml",
     Templates.ci_yml python_version);
    (project_dir / ".gitignore", Templates.gitignore);
    (project_dir / "README.md",
     Templates.readme_md project_name description) ].

(** What [create_file] hands to [write_text] for each of them. *)
Definition rendered_files : list (Path * string) :=
  map (fun f => (fst f, lstrip (dedent (snd f)))) templates.

(** The six external commands, in the order of the calls to [run]. *)
Definition command_chain : list (list string) :=
  [ ["uv"; "venv"; "--python"; python_version];
    ["uv"; "sync"; "--all-extras"];
    ["uv"; "run"; "ruff"; "check"; "src"; "tests"];
    ["uv"; "run"; "ruff"; "format"; "--check"; "src"; "tests"];
    ["uv"; "run"; "pyright"];
    ["uv"; "run"; "pytest"] ].

Definition header : list step :=
  [ DoPrint (MsgBootstrapping project_name);
    DoPrint (MsgDirectory project_dir);
    DoPrint (MsgPackage (package_name project_name));
    DoPrint (MsgPython python_version);
    DoMkdir project_dir ].

Definition renders : list step :=
  map (fun f => DoCreate (fst f) (snd f)) templates.

Definition checks : list step :=
  [ DoPrint MsgInitialising;
    DoRun ["uv"; "venv"; "--python"; python_version] project_dir;
    DoPrint (MsgPassed "Created .venv");
    DoRun ["uv"; "sync"; "--all-extras"] project_dir;
    DoPrint (MsgPassed "Installed dependencies");
    DoPrint MsgRunningChecks;
    DoRun ["uv"; "run"; "ruff"; "check"; "src"; "tests"] project_dir;
    DoPrint (MsgPassed "ruff lint passed");
    DoRun ["uv"; "run"; "ruff"; "format"; "--check"; "src"; "tests"]
      project_dir;
    DoPrint (MsgPassed "ruff format passed");
    DoRun ["uv"; "run"; "pyright"] project_dir;
    DoPrint (MsgPassed "pyright passed");
    DoRun ["uv"; "run"; "pytest"] project_dir;
    DoPrint (MsgPassed "pytest passed");
    DoPrint (MsgReady project_name);
    DoPrint (MsgCd project_dir) ].

Definition plan : list step :=
  (header ++ renders ++ checks ++ [DoPrint MsgNextSteps])%list.

End Plan.

(** The message [run] prints first when a command fails. *)
Definition failure_report (cmd : list string) (p : CompletedProcess)
  : list event :=
  [ Print (MsgCommandFailed (join " " cmd)); Print (MsgStderr (stderr p)) ].

Inductive follows : list step -> list event -> result unit -> Prop :=
| follows_end :
    follows [] [] (Ok tt)
| follows_print m rest tr r :
    follows rest tr r ->
    follows (DoPrint m :: rest) (Print m :: tr) r
| follows_mkdir p rest tr r :
    follows rest tr r ->
    follows (DoMkdir p :: rest) (Mkdir p None :: tr) r
| follows_mkdir_refused p e rest :
    follows (DoMkdir p :: rest) [Mkdir p (Some e)] (Raise e)
| follows_create path content rest tr r :
    follows rest tr r ->
    follows (DoCreate path content :: rest)
            (Mkdir (parent path) None
               :: WriteText path (lstrip (dedent content)) None
               :: Print (MsgCreated path) :: tr) r
| follows_create_no_parent path content e rest :
    follows (DoCreate path content :: rest)
            [Mkdir (parent path) (Some e)] (Raise e)
| follows_create_refused path content e rest :
    follows (DoCreate path content :: rest)
            [Mkdir (parent path) None;
             WriteText path (lstrip (dedent content)) (Some e)] (Raise e)
| follows_run cmd cwd p rest tr r :
    returncode p = 0%Z ->
    follows rest tr r ->
    follows (DoRun cmd cwd :: rest) (Spawn cmd cwd (inr p) :: tr) r
| follows_run_failed cmd cwd p rest :
    returncode p <> 0%Z ->
    follows (DoRun cmd cwd :: rest)
            (Spawn cmd cwd (inr p) :: failure_report cmd p) (Exit 1)
| follows_run_not_started cmd cwd e rest :
    follows (DoRun cmd cwd :: rest) [Spawn cmd cwd (inl e)] (Raise e).

(** What a plan renders and starts when nothing stops it. *)
Fixpoint plan_written (steps : list step) : list (Path * string) :=
  match steps with
  | [] => []
  | DoCreate path content :: rest =>
      (path, lstrip (dedent content)) :: plan_written rest
  | _ :: rest => plan_written rest
  end.

Fixpoint plan_spawned (steps : list step) : list (list string) :=
  match steps with
  | [] => []
  | DoRun cmd _ :: rest => cmd :: plan_spawned rest
  | _ :: rest => plan_spawned rest
  end.

(** A step that asks nothing of the file system. *)
Definition fs_free (s : step) : bool :=
  match s with
  | DoPrint _ | DoRun _ _ => true
  | DoMkdir _ | DoCreate _ _ => false
  end.

(** ** A small machine to run the script on

    A disk of directories (writable or not) and files, and a table of what
    each external command answers.  Search permission is always granted and
    an existing file can always be rewritten. *)

Module Machine.

Inductive node : Type :=
| Dir (writable : bool)
| File (data : string).

Record state : Type := {
  disk : Path -> option node;
  tools : list string -> exception + CompletedProcess
}.

Definition store (d : Path -> option node) (p : Path) (n : node)
  : Path -> option node :=
  fun q => if path_eqb q p then Some n else d q.

(** Create the directories [rest] below the existing directory [cur]. *)
Fixpoint make_dirs (d : Path -> option node) (cur : Path)
         (rest : list string) : option exception * (Path -> option node) :=
  match rest with
  | [] => (None, d)
  | c :: rest' =>
      let next := (cur ++ [c])%list in
      match d next with
      | Some (Dir _) => make_dirs d next rest'
      | Some (File _) =>
          (Some (PyError match rest' with
                         | [] => "FileExistsError"
                         | _ => "NotADirectoryError"
                         end), d)
      | None =>
          match d cur with
          | Some (Dir true) => make_dirs (store d next (Dir true)) next rest'
          | _ => (Some (PyError "PermissionError"), d)
          end
      end
  end.

Definition mkdir_parents (p : Path) (s : state) : option exception * state :=
  let '(answer, d) := make_dirs (disk s) [] p in
  (answer, {| disk := d; tools := tools s |}).

(** [open(p, 'w')] followed by the write. *)
Definition write (p : Path) (data : string) (s : state)
  : option exception * state :=
  match disk s p with
  | Some (File _) =>
      (None, {| disk := store (disk s) p (File data); tools := tools s |})
  | Some (Dir _) => (Some (PyError "IsADirectoryError"), s)
  | None =>
      match disk s (parent p) with
      | Some (Dir true) =>
          (None, {| disk := store (disk s) p (File data); tools := tools s |})
      | Some (Dir false) => (Some (PyError "PermissionError"), s)
      | Some (File _) => (Some (PyError "NotADirectoryError"), s)
      | None => (Some (PyError "FileNotFoundError"), s)
      end
  end.

Definition spawn (cmd : list string) (cwd : Path) (s : state)
  : (exception + CompletedProcess) * state :=
  (tools s cmd, s).

Definition machine : world state := {|
  path_mkdir := mkdir_parents;
  path_write_text := write;
  subprocess_run := spawn
|}.

(** Disks: only the root, writable; and a read-only directory [/srv/app]. *)
Definition empty_disk : Path -> option node :=
  fun p => match p with [] => Some (Dir true) | _ => None end.

Definition locked_disk : Path -> option node :=
  store (store empty_disk ["srv"] (Dir true)) ["srv"; "app"] (Dir false).

Definition succeed : CompletedProcess :=
  {| returncode := 0; stdout := ""; stderr := "" |}.

Definition all_pass : list string -> exception + CompletedProcess :=
  fun _ => inr succeed.

(** The type checker reports errors and exits with status 2. *)
Definition pyright_fails : list string -> exception + CompletedProcess :=
  fun cmd =>
    if path_eqb cmd ["uv"; "run"; "pyright"]
    then inr {| returncode := 2; stdout := ""; stderr := "3 errors" |}
    else inr succeed.

(** No [uv] on the machine: no command can be started. *)
Definition no_tools : list string -> exception + CompletedProcess :=
  fun _ => inl (PyError "FileNotFoundError").

Definition bare : state := {| disk := empty_disk; tools := no_tools |}.

Definition fresh : state := {| disk := empty_disk; tools := all_pass |}.
Definition locked : state := {| disk := locked_disk; tools := all_pass |}.
Definition broken_types : state :=
  {| disk := empty_disk; tools := pyright_fails |}.

End Machine.

(** ** What the specification says about the package identifier *)

Definition hyphen_to_underscore (c : ascii) : ascii :=
  if Ascii.eqb c "-" then "_"%char else c.

(** Following the specification's words: every hyphen replaced by an
    underscore and every letter lowercased. *)
Definition spec_package_identifier (project_name : string) : string :=
  map_chars (fun c => lower_char (hyphen_to_underscore c)) project_name.

Definition is_ascii_letter (c : ascii) : bool :=
  let n := nat_of_ascii c in in_range 65 90 n || in_range 97 122 n.

Definition is_digit (c : ascii) : bool := in_range 48 57 (nat_of_ascii c).

Definition is_identifier_start (c : ascii) : bool :=
  is_ascii_letter c || Ascii.eqb c "_".

Definition is_identifier_char (c : ascii) : bool :=
  is_identifier_start c || is_digit c.

(** An ASCII identifier of the Python grammar. *)
Definition is_identifier (s : string) : bool :=
  match s with
  | "" => false
  | String c s' => is_identifier_start c && all_chars is_identifier_char s'
  end.

(** The reserved words of Python 3.12. *)
Definition keywords : list string :=
  [ "False"; "None"; "True"; "and"; "as"; "assert"; "async"; "await";
    "break"; "class"; "continue"; "def"; "del"; "elif"; "else"; "except";
    "finally"; "for"; "from"; "global"; "if"; "import"; "in"; "is";
    "lambda"; "nonlocal"; "not"; "or"; "pass"; "raise"; "return"; "try";
    "while"; "with"; "yield" ].

Definition is_keyword (s : string) : bool := existsb (String.eqb s) keywords.

(** Usable after [from] in the generated test module. *)
Definition import_safe (s : string) : bool :=
  is_identifier s && negb (is_keyword s).

(** Usable as one path component: joining it adds exactly the component
    [s], which is not the parent link. *)
Definition path_safe (s : string) : bool :=
  path_eqb (parse_parts s) [s] && negb (startswith s "/")
  && negb (s =? "..").

(** Project names in the style of the script's own example
    ([my-cool-project]): ASCII letters, digits, hyphens and underscores, not
    starting with a digit. *)
Definition is_name_char (c : ascii) : bool :=
  is_identifier_char c || Ascii.eqb c "-".

Definition is_name_start (c : ascii) : bool :=
  is_identifier_start c || Ascii.eqb c "-".

Definition plain_project_name (s : string) : bool :=
  match s with
  | "" => false
  | String c s' => is_name_start c && all_chars is_name_char s'
  end.

(** Following the specification's words for the renderer: one leading blank
    line is dropped, the indentation common to the lines is removed, and
    nothing else changes. *)
Definition drop_leading_blank_line (lines : list string) : list string :=
  match lines with
  | first :: (_ :: _) as rest => if whitespace_only first then rest else lines
  | _ => lines
  end.

Definition common_margin (lines : list string) : string :=
  let indents :=
    map leading_whitespace
        (filter (fun l => negb (whitespace_only l)) lines) in
  match fold_left update_margin indents None with
  | Some m => m
  | None => ""
  end.

Definition spec_render (template : string) : string :=
  let lines := drop_leading_blank_line (split_on newline template) in
  join nl (map (remove_margin (common_margin lines)) lines).

(** The shape of a template as the script writes them: the first line
    carries the margin and then text, every other line is blank or carries
    the margin too. *)
Definition carries_margin (margin l : string) : bool :=
  whitespace_only l || startswith l margin.

Definition starts_with_text (l : string) : bool :=
  match l with
  | "" => false
  | String c _ => negb (isspace_char c)
  end.

Definition no_newline (l : string) : bool :=
  all_chars (fun c => negb (Ascii.eqb c newline)) l.

(** The line [dedent] makes of one line of such a template. *)
Definition dedented_line (margin l : string) : string :=
  if whitespace_only l then "" else drop (String.length margin) l.

(** ** The rendered files as the specification lists them *)

(** Following the specification's words: build manifest, source package
    init, type-marker file, test package init, test module, pre-commit
    config, CI workflow, ignore file, README. *)
Definition declared_files (project_dir : Path) (project_name : string)
  : list Path :=
  let package := package_name project_name in
  [ project_dir / "pyproject.toml";
    project_dir / "src" / package / "__init__.py";
    project_dir / "src" / package / "py.typed";
    project_dir / "tests" / "__init__.py";
    project_dir / "tests" / ("test_" ++ package ++ ".py");
    project_dir / ".pre-commit-config.yaml";
    project_dir / ".github" / "workflows" / "ci.yml";
    project_dir / ".gitignore";
    project_dir / "README.md" ].

(** The lines of a rendered file. *)
Definition lines (data : string) : list string := split_on newline data.

(** The text of a template with the margin of the script removed from each
    line and the blank lines emptied. *)
Definition without_margin (template_lines : list string) : string :=
  join nl (map (dedented_line Templates.margin) template_lines).

(** The nine files with their templates treated that way; the two marker
    files are empty. *)
Definition dedented_files (project_dir : Path)
           (project_name python_version description : string)
  : list (Path * string) :=
  let package := package_name project_name in
  [ (project_dir / "pyproject.toml",
     without_margin
       (Templates.pyproject_toml_lines project_name description
          python_version package));
    (project_dir / "src" / package / "__init__.py",
     without_margin (Templates.src_init_py_lines project_name description));
    (project_dir / "src" / package / "py.typed", "");
    (project_dir / "tests" / "__init__.py", "");
    (project_dir / "tests" / ("test_" ++ package ++ ".py"),
     without_margin (Templates.test_module_py_lines package));
    (project_dir / ".pre-commit-config.yaml",
     without_margin Templates.pre_commit_config_yaml_lines);
    (project_dir / ".github" / "workflows" / "ci.yml",
     without_margin (Templates.ci_yml_lines python_version));
    (project_dir / ".gitignore", without_margin Templates.gitignore_lines);
    (project_dir / "README.md",
     without_margin (Templates.readme_md_lines project_name description)) ].

(** A directory that exists and takes no new file: asking for it is granted
    and changes nothing, writing a file in it is refused. *)
Definition unwritable {W : Type} (env : world W) (dir : Path) (w : W) : Prop :=
  path_mkdir env dir w = (None, w)
  /\ forall p data, parent p = dir ->
                   fst (path_write_text env p data w) <> None.

(** The runs used to exercise the theorems: the project [sample] below
    [/srv/app], on a fresh disk, with a failing type checker, on a disk
    where [/srv/app] is read-only, and a second time on the same disk. *)
Module Sample.

Definition dir : Path := ["srv"; "app"].

Definition good : Run Machine.state unit :=
  bootstrap Machine.machine dir "sample" "3.12" "" Machine.fresh.

Definition ill_typed : Run Machine.state unit :=
  bootstrap Machine.machine dir "sample" "3.12" "" Machine.broken_types.

Definition refused : Run Machine.state unit :=
  bootstrap Machine.machine dir "sample" "3.12" "" Machine.locked.

Definition without_uv : Run Machine.state unit :=
  bootstrap Machine.machine dir "sample" "3.12" "" Machine.bare.

(** The same command again, on the disk the good run left. *)
Definition rerun : Run Machine.state unit :=
  bootstrap Machine.machine dir "sample" "3.12" "" (final good).

(** The file [p] holds [data] on the disk of [s]. *)
Definition holds (s : Machine.state) (f : Path * string) : bool :=
  match Machine.disk s (fst f) with
  | Some (Machine.File data) => data =? snd f
  | _ => false
  end.

Definition pyright : list string := ["uv"; "run"; "pyright"].

Definition pyright_answer : CompletedProcess :=
  {| returncode := 2; stdout := ""; stderr := "3 errors" |}.

(** A text with two blank lines in front, and the README of a project
    whose description has two lines. *)
Definition two_blank_lines : string := nl ++ nl ++ "  x".

Definition long_readme : string :=
  Templates.readme_md "sample" ("first" ++ nl ++ "second").

Definition notes : Path := ["notes.txt"].

End Sample.

(** ** Further observations on a trace *)

(** The lines of a run that succeeds, as the source prints them. *)
Definition success_lines (project_dir : Path)
           (project_name python_version : string) : list message :=
  ([ MsgBootstrapping project_name;
     MsgDirectory project_dir;
     MsgPackage (package_name project_name);
     MsgPython python_version ]
   ++ map MsgCreated (declared_files project_dir project_name)
   ++ [ MsgInitialising;
        MsgPassed "Created .venv";
        MsgPassed "Installed dependencies";
        MsgRunningChecks;
        MsgPassed "ruff lint passed";
        MsgPassed "ruff format passed";
        MsgPassed "pyright passed";
        MsgPassed "pytest passed";
        MsgReady project_name;
        MsgCd project_dir;
        MsgNextSteps ])%list.

(** The paths of the [Created] lines, in order. *)
Fixpoint created (tr : list event) : list Path :=
  match tr with
  | [] => []
  | Print (MsgCreated p) :: tr' => p :: created tr'
  | _ :: tr' => created tr'
  end.

(** The paths of the writes the world granted, in order. *)
Fixpoint granted_writes (tr : list event) : list Path :=
  match tr with
  | [] => []
  | WriteText p _ None :: tr' => p :: granted_writes tr'
  | _ :: tr' => granted_writes tr'
  end.

(** The exception the world answered an event with, if any. *)
Definition raised (e : event) : option exception :=
  match e with
  | Mkdir _ (Some x) | WriteText _ _ (Some x) | Spawn _ _ (inl x) => Some x
  | _ => None
  end.

(** The first exception of a trace, if there is one, ends the trace and is
    the outcome [r]. *)
Fixpoint stops_on_exception (tr : list event) (r : result unit) : Prop :=
  match tr with
  | [] => True
  | ev :: post =>
      match raised ev with
      | Some e => post = [] /\ r = Raise e
      | None => stops_on_exception post r
      end
  end.

(** No command of the trace failed to start or exited with a non-zero
    code. *)
Definition completed_ok (e : event) : bool :=
  match e with
  | Spawn _ _ (inl _) => false
  | Spawn _ _ (inr p) => (returncode p =? 0)%Z
  | _ => true
  end.

(** A step that is not itself the printing of a [Created] line. *)
Definition prints_no_created (s : step) : bool :=
  match s with
  | DoPrint (MsgCreated _) => false
  | _ => true
  end.

(** The lines a plan prints when nothing stops it. *)
Fixpoint plan_printed (steps : list step) : list message :=
  match steps with
  | [] => []
  | DoPrint m :: rest => m :: plan_printed rest
  | DoCreate path _ :: rest => MsgCreated path :: plan_printed rest
  | _ :: rest => plan_printed rest
  end.

(** The nine files below the target directory, component by component,
    when the package name is a single component. *)
Definition package_layout (package : string) : list (list string) :=
  [ ["pyproject.toml"];
    ["src"; package; "__init__.py"];
    ["src"; package; "py.typed"];
    ["tests"; "__init__.py"];
    ["tests"; "test_" ++ package ++ ".py"];
    [".pre-commit-config.yaml"];
    [".github"; "workflows"; "ci.yml"];
    [".gitignore"];
    ["README.md"] ].

(** ** The entry point (bootstrap.py, lines 276-285)

    The parsed arguments are taken as they come out of [argparse]; the
    target directory is a pure path, absolute or relative, and [resolve],
    which needs the working directory and the links of the file system, is
    left to the caller of [main]. *)

Module Entry.

Record PurePath : Type := {
  anchored : bool;
  parts : list string
}.

(** [Path(s)] *)
Definition pure_path (s : string) : PurePath :=
  {| anchored := startswith s "/"; parts := parse_parts s |}.

(** [p / segment] on pure paths. *)
Definition pure_truediv (p : PurePath) (segment : string) : PurePath :=
  if startswith segment "/" then pure_path segment
  else {| anchored := anchored p;
          parts := (parts p ++ parse_parts segment)%list |}.

(** The namespace [parser.parse_args()] returns. *)
Record Namespace : Type := {
  project_name : string;
  dir : option string;
  python : string;
  description : string
}.

(** The namespace when only the project name is given (lines 279-281). *)
Definition defaults (name : string) : Namespace :=
  {| project_name := name; dir := None; python := "3.12";
     description := "" |}.

(** Line 284; an empty string is false in a condition, like [None]. *)
Definition target_dir (args : Namespace) : PurePath :=
  match dir args with
  | Some d =>
      if d =? "" then pure_path (project_name args)
      else pure_truediv (pure_path d) (project_name args)
  | None => pure_path (project_name args)
  end.

(** Line 285 *)
Definition main {W : Type} (env : world W) (resolve : PurePath -> Path)
           (args : Namespace) : M W unit :=
  bootstrap env (resolve (target_dir args)) (project_name args)
    (python args) (description args).

(** [resolve] where nothing is a link and no component is [..]: the parts
    below the working directory, or below the root. *)
Definition resolve_below (cwd : Path) (p : PurePath) : Path :=
  if anchored p then parts p else (cwd ++ parts p)%list.

End Entry.

(** Runs from the command line, to exercise the theorems on [main]. *)
Module Shell.

(** The command line [bootstrap.py My-Cool-Tool], run in [/home/dev]. *)
Definition from_shell : Run Machine.state unit :=
  Entry.main Machine.machine (Entry.resolve_below ["home"; "dev"])
    (Entry.defaults "My-Cool-Tool") Machine.fresh.

(** An absolute project name together with [--dir elsewhere]. *)
Definition absolute_args : Entry.Namespace :=
  {| Entry.project_name := "/srv/app";
     Entry.dir := Some "elsewhere";
     Entry.python := "3.12";
     Entry.description := "" |}.

End Shell.

(** * Properties *)

(** ** Strings *)

Lemma prefix_empty (s : string) : prefix "" s = true.
Proof. destruct s; reflexivity. Qed.

Lemma map_chars_compose (f g : ascii -> ascii) (s : string) :
  map_chars f (map_chars g s) = map_chars (fun c => f (g c)) s.
Proof.
  induction s as [|c s IH]; simpl; [reflexivity|].
  now rewrite IH.
Qed.

Lemma map_chars_ext (f g : ascii -> ascii) (s : string) :
  (forall c, f c = g c) -> map_chars f s = map_chars g s.
Proof.
  intros E. induction s as [|c s IH]; simpl; [reflexivity|].
  now rewrite E, IH.
Qed.

Lemma all_chars_map (p : ascii -> bool) (f : ascii -> ascii) (s : string) :
  all_chars p (map_chars f s) = all_chars (fun c => p (f c)) s.
Proof.
  induction s as [|c s IH]; simpl; [reflexivity|].
  now rewrite IH.
Qed.

Lemma all_chars_impl (p q : ascii -> bool) (s : string) :
  (forall c, p c = true -> q c = true) ->
  all_chars p s = true -> all_chars q s = true.
Proof.
  intros I. induction s as [|c s IH]; simpl; [reflexivity|].
  intros H. apply andb_true_iff in H as [Hc Hs].
  apply andb_true_iff. split; auto.
Qed.

(** Replacing one character by another is a character map. *)
Lemma replace_hyphen (s : string) :
  replace "-" "_" s = map_chars hyphen_to_underscore s.
Proof.
  unfold replace. induction s as [|c s IH]; [reflexivity|].
  cbn [replace_from map_chars]. unfold hyphen_to_underscore at 1.
  cbn [prefix String.length Nat.sub].
  destruct (ascii_dec "-" c) as [<-|N].
  - rewrite prefix_empty. cbn. now rewrite IH.
  - destruct (Ascii.eqb_spec c "-") as [->|_]; [contradiction|].
    now rewrite IH.
Qed.

Lemma package_name_map (name : string) :
  package_name name
  = map_chars (fun c => lower_char (hyphen_to_underscore c)) name.
Proof.
  unfold package_name, lower. rewrite replace_hyphen.
  apply map_chars_compose.
Qed.

Ltac each_char c :=
  destruct c as [[] [] [] [] [] [] [] []]; vm_compute; try reflexivity;
  try discriminate; auto.

Lemma normalise_char_idempotent (c : ascii) :
  lower_char (hyphen_to_underscore (lower_char (hyphen_to_underscore c)))
  = lower_char (hyphen_to_underscore c).
Proof. each_char c. Qed.

Lemma name_start_normalised (c : ascii) :
  is_name_start c = true ->
  is_identifier_start (lower_char (hyphen_to_underscore c)) = true.
Proof. each_char c. Qed.

Lemma name_char_normalised (c : ascii) :
  is_name_char c = true ->
  is_identifier_char (lower_char (hyphen_to_underscore c)) = true.
Proof. each_char c. Qed.

Lemma identifier_char_no_slash (c : ascii) :
  is_identifier_char c = true -> Ascii.eqb c "/" = false.
Proof. each_char c. Qed.

Lemma identifier_start_plain (c : ascii) :
  is_identifier_start c = true ->
  Ascii.eqb c "/" = false /\ Ascii.eqb c "." = false.
Proof. each_char c. Qed.

Lemma split_on_no_separator (sep : ascii) (s : string) :
  all_chars (fun c => negb (Ascii.eqb c sep)) s = true ->
  split_on sep s = [s].
Proof.
  induction s as [|c s IH]; simpl; [reflexivity|].
  intros H. apply andb_true_iff in H as [Hc Hs].
  apply negb_true_iff in Hc. rewrite Hc, (IH Hs). reflexivity.
Qed.

Lemma path_eqb_refl (p : Path) : path_eqb p p = true.
Proof.
  unfold path_eqb. destruct (list_eq_dec string_dec p p); congruence.
Qed.

Lemma identifier_path_safe (s : string) :
  is_identifier s = true -> path_safe s = true.
Proof.
  destruct s as [|c s]; [discriminate|]. cbn [is_identifier].
  intros H. apply andb_true_iff in H as [Hc Hs].
  destruct (identifier_start_plain c Hc) as [Hslash Hdot].
  assert (Hsplit : split_on "/" (String c s) = [String c s]).
  { apply split_on_no_separator. cbn [all_chars]. rewrite Hslash. cbn.
    revert Hs. apply all_chars_impl. intros a Ha.
    now rewrite (identifier_char_no_slash a Ha). }
  unfold path_safe, parse_parts. rewrite Hsplit.
  assert (Hkeep : keep_part (String c s) = true).
  { unfold keep_part. cbn [String.eqb]. rewrite Hdot. reflexivity. }
  cbn [filter]. rewrite Hkeep, path_eqb_refl.
  unfold startswith. cbn [prefix].
  destruct (ascii_dec "/" c) as [<-|_]; [discriminate Hslash|].
  cbn [String.eqb]. rewrite Hdot. reflexivity.
Qed.

(** ** Every run follows the plan *)

Section Runs.

Context {W : Type} (env : world W).

Lemma steps_then_follows (steps : list step) (last : message) (w : W) :
  let r := steps_then env steps (print last) w in
  follows (steps ++ [DoPrint last])%list (trace r) (outcome r).
Proof.
  revert w. induction steps as [|s rest IH]; intros w.
  - cbn. apply follows_print, follows_end.
  - cbn [steps_then app]. destruct s as [m|p|path content|cmd cwd].
    + cbn. apply follows_print, IH.
    + unfold bind. cbn [do_step]. unfold mkdir.
      destruct (path_mkdir env p w) as [[e|] w1]; cbn.
      * apply follows_mkdir_refused.
      * apply follows_mkdir, IH.
    + unfold bind. cbn [do_step]. unfold create_file, bind, mkdir.
      destruct (path_mkdir env (parent path) w) as [[e|] w1]; cbn.
      { apply follows_create_no_parent. }
      unfold write_text.
      destruct (path_write_text env path _ w1) as [[e|] w2]; cbn.
      { apply follows_create_refused. }
      apply follows_create, IH.
    + unfold bind. cbn [do_step]. unfold run, bind, subprocess.
      destruct (subprocess_run env cmd cwd w) as [[e|p] w1]; cbn.
      { apply follows_run_not_started. }
      destruct (Z.eqb_spec (returncode p) 0) as [Z|NZ]; cbn.
      * apply follows_run; [exact Z|]. apply IH.
      * apply follows_run_failed. exact NZ.
Qed.

Lemma bootstrap_steps (project_dir : Path)
      (project_name python_version description : string) (w : W) :
  bootstrap env project_dir project_name python_version description w
  = steps_then env
      (header project_dir project_name python_version
         ++ renders project_dir project_name python_version description
         ++ checks project_dir project_name python_version)%list
      (print MsgNextSteps) w.
Proof. reflexivity. Qed.

Lemma bootstrap_follows (project_dir : Path)
      (project_name python_version description : string) (w : W) :
  let r :=
    bootstrap env project_dir project_name python_version description w in
  follows (plan project_dir project_name python_version description)
          (trace r) (outcome r).
Proof.
  cbv zeta. rewrite bootstrap_steps.
  exact (steps_then_follows
           (header project_dir project_name python_version
              ++ renders project_dir project_name python_version
                   description
              ++ checks project_dir project_name python_version)%list
           MsgNextSteps w).
Qed.

End Runs.

(** ** What the traces of a plan look like *)

Lemma written_app (a b : list event) :
  written (a ++ b) = (written a ++ written b)%list.
Proof.
  induction a as [|e a IH]; [reflexivity|].
  destruct e; cbn; now rewrite IH.
Qed.

Lemma spawned_app (a b : list event) :
  spawned (a ++ b) = (spawned a ++ spawned b)%list.
Proof.
  induction a as [|e a IH]; [reflexivity|].
  destruct e; cbn; now rewrite IH.
Qed.

Lemma follows_written_prefix steps tr r :
  follows steps tr r ->
  exists rest, plan_written steps = (written tr ++ rest)%list.
Proof.
  induction 1 as [ | m rest tr r _ [k IH] | p rest tr r _ [k IH] | p e rest
                 | path content rest tr r _ [k IH] | path content e rest
                 | path content e rest | cmd cwd p rest tr r _ _ [k IH]
                 | cmd cwd p rest _ | cmd cwd e rest ]; cbn.
  - now exists [].
  - now exists k.
  - now exists k.
  - now exists (plan_written rest).
  - exists k. now rewrite IH.
  - now exists ((path, lstrip (dedent content)) :: plan_written rest).
  - now exists (plan_written rest).
  - now exists k.
  - now exists (plan_written rest).
  - now exists (plan_written rest).
Qed.

Lemma follows_spawned_prefix steps tr r :
  follows steps tr r ->
  exists rest, plan_spawned steps = (spawned tr ++ rest)%list.
Proof.
  induction 1 as [ | m rest tr r _ [k IH] | p rest tr r _ [k IH] | p e rest
                 | path content rest tr r _ [k IH] | path content e rest
                 | path content e rest | cmd cwd p rest tr r _ _ [k IH]
                 | cmd cwd p rest _ | cmd cwd e rest ]; cbn.
  - now exists [].
  - now exists k.
  - now exists k.
  - now exists (plan_spawned rest).
  - now exists k.
  - now exists (plan_spawned rest).
  - now exists (plan_spawned rest).
  - exists k. now rewrite IH.
  - now exists (plan_spawned rest).
  - now exists (plan_spawned rest).
Qed.

(** A run that returns has done everything the plan lists. *)
Lemma follows_returned steps tr :
  follows steps tr (Ok tt) ->
  written tr = plan_written steps /\ spawned tr = plan_spawned steps
  /\ forallb fs_granted tr = true.
Proof.
  remember (Ok tt) as r eqn:E. intros F.
  induction F as [ | m rest tr r _ IH | p rest tr r _ IH | p e rest
                 | path content rest tr r _ IH | path content e rest
                 | path content e rest | cmd cwd p rest tr r _ _ IH
                 | cmd cwd p rest _ | cmd cwd e rest ];
    try discriminate E; cbn;
    try (destruct (IH E) as (Hw & Hs & Hg); rewrite ?Hw, ?Hs, ?Hg);
    repeat split; reflexivity.
Qed.

(** A run that stops where the plan has no command to start was refused by
    the file system, and it started nothing. *)
Lemma follows_stopped_rendering steps tr r :
  follows steps tr r ->
  plan_spawned steps = [] ->
  r <> Ok tt ->
  forallb fs_granted tr = false /\ spawned tr = []
  /\ exists e, r = Raise e.
Proof.
  induction 1 as [ | m rest tr r _ IH | p rest tr r _ IH | p e rest
                 | path content rest tr r _ IH | path content e rest
                 | path content e rest | cmd cwd p rest tr r _ _ IH
                 | cmd cwd p rest _ | cmd cwd e rest ];
    cbn; intros Hplan Hr; try discriminate Hplan;
    try (destruct (IH Hplan Hr) as (Hg & Hs & He); auto);
    try (repeat split; eauto; fail).
  contradiction.
Qed.

(** The trace of two plans in a row: either the first part returned and the
    second took over, or the run stopped inside the first. *)
Lemma follows_app s1 s2 tr r :
  follows (s1 ++ s2) tr r ->
  (exists tr1 tr2, tr = (tr1 ++ tr2)%list
                   /\ follows s1 tr1 (Ok tt) /\ follows s2 tr2 r)
  \/ (follows s1 tr r /\ r <> Ok tt).
Proof.
  revert tr. induction s1 as [|s s1 IH]; intros tr F.
  - left. exists [], tr. repeat split; [constructor | exact F].
  - cbn [app] in F. inversion F; subst; clear F;
      try (right; split; [constructor; assumption | discriminate]).
    all: match goal with H : follows (_ ++ _) _ _ |- _ =>
           destruct (IH _ H) as [(t1 & t2 & -> & F1 & F2) | [F1 N]]
         end.
    all: try (right; split; [constructor; assumption | exact N]).
    + left. exists (Print m :: t1), t2. repeat split; [constructor|]; auto.
    + left. exists (Mkdir p None :: t1), t2.
      repeat split; [constructor|]; auto.
    + left.
      exists (Mkdir (parent path) None
                :: WriteText path (lstrip (dedent content)) None
                :: Print (MsgCreated path) :: t1), t2.
      repeat split; [constructor|]; auto.
    + left. exists (Spawn cmd cwd (inr p) :: t1), t2.
      repeat split; [constructor|]; auto.
Qed.

(** A command that exits with a non-zero code is the last thing the run
    starts: the report follows and the run exits with status 1. *)
Lemma follows_failure steps tr r :
  follows steps tr r ->
  forall pre cmd cwd p post,
    tr = (pre ++ Spawn cmd cwd (inr p) :: post)%list ->
    returncode p <> 0%Z ->
    post = failure_report cmd p /\ r = Exit 1.
Proof.
  induction 1 as [ | m rest tr r _ IH | q rest tr r _ IH | q e rest
                 | path content rest tr r _ IH | path content e rest
                 | path content e rest | cmd0 cwd0 p0 rest tr r Hz _ IH
                 | cmd0 cwd0 p0 rest Hnz | cmd0 cwd0 e rest ];
    intros pre cmd cwd p post E NZ.
  - destruct pre; discriminate E.
  - destruct pre as [|x pre]; [discriminate E|].
    injection E as _ E. eauto.
  - destruct pre as [|x pre]; [discriminate E|].
    injection E as _ E. eauto.
  - destruct pre as [|x [|y pre]]; discriminate E.
  - destruct pre as [|x [|y [|z pre]]]; try discriminate E.
    injection E as _ _ _ E. eauto.
  - destruct pre as [|x [|y pre]]; discriminate E.
  - destruct pre as [|x [|y [|z pre]]]; discriminate E.
  - destruct pre as [|x pre].
    + injection E as _ _ Ep _. subst p0. contradiction.
    + injection E as _ E. eauto.
  - destruct pre as [|x pre].
    + injection E as Ec _ Ep Epost. subst. split; reflexivity.
    + injection E as _ E. unfold failure_report in E.
      destruct pre as [|y [|z [|u pre]]]; discriminate E.
  - destruct pre as [|x [|y pre]]; discriminate E.
Qed.

(** Steps that ask nothing of the file system are refused nothing. *)
Lemma follows_fs_free steps tr r :
  follows steps tr r ->
  forallb fs_free steps = true ->
  forallb fs_granted tr = true.
Proof.
  induction 1; cbn; intros Hfree; try discriminate Hfree; auto.
Qed.

(** ** The package identifier *)

(** C1.  The package identifier is the project name with every hyphen
    replaced by an underscore and every letter lowercased; "My-Cool-Tool"
    gives "my_cool_tool"; and whatever the world, the directory, the version
    and the description of a run, the package it announces is that function
    of the project name. *)
Theorem package_identifier_derivation :
  (forall name, package_name name = spec_package_identifier name)
  /\ package_name "My-Cool-Tool" = "my_cool_tool"
  /\ (forall (W : Type) (env : world W) (w : W) (project_dir : Path)
             (name python_version description : string),
        nth_error
          (printed
             (trace (bootstrap env project_dir name python_version
                       description w))) 2
        = Some (MsgPackage (package_name name))).
Proof.
  split; [|split].
  - intros name. apply package_name_map.
  - reflexivity.
  - intros. reflexivity.
Qed.

(** C8.  Normalising an already normalised identifier changes nothing. *)
Theorem package_name_idempotent (name : string) :
  package_name (package_name name) = package_name name.
Proof.
  rewrite !package_name_map, map_chars_compose.
  apply map_chars_ext, normalise_char_idempotent.
Qed.

(** C9 as stated fails: a project name that starts with a digit gives an
    identifier that cannot be imported, and one with a slash gives more than
    one path component. *)
Lemma package_identifier_unsafe :
  import_safe (package_name "2048-game") = false
  /\ path_safe (package_name "tools/cli") = false.
Proof. split; reflexivity. Qed.

(** C9, amended.  For a project name of ASCII letters, digits, hyphens and
    underscores that does not start with a digit, the package identifier is
    a Python identifier and a single path component; it can be imported
    unless it is a reserved word. *)
Theorem plain_name_gives_identifier (name : string) :
  plain_project_name name = true ->
  is_identifier (package_name name) = true
  /\ path_safe (package_name name) = true
  /\ import_safe (package_name name) = negb (is_keyword (package_name name)).
Proof.
  intros H.
  assert (I : is_identifier (package_name name) = true).
  { rewrite package_name_map. destruct name as [|c s]; [discriminate H|].
    cbn [plain_project_name] in H. apply andb_true_iff in H as [Hc Hs].
    cbn [map_chars is_identifier]. rewrite (name_start_normalised c Hc).
    rewrite all_chars_map. cbn [andb].
    revert Hs. apply all_chars_impl. exact name_char_normalised. }
  split; [exact I|]. split; [apply identifier_path_safe, I|].
  unfold import_safe. now rewrite I.
Qed.

Lemma plain_name_gives_identifier_witness :
  plain_project_name "My-Cool-Tool" = true
  /\ is_identifier (package_name "My-Cool-Tool") = true.
Proof.
  split; [reflexivity|].
  exact (proj1 (plain_name_gives_identifier "My-Cool-Tool" eq_refl)).
Defined.

(** ** The command chain *)

Section Chain.

Context {W : Type} (env : world W).
Variable project_dir : Path.
Variables project_name python_version description : string.
Variable w : W.

Let r : Run W unit :=
  bootstrap env project_dir project_name python_version description w.

(** C3.  When a command of the chain exits with a non-zero code, it sits
    in the chain right after the commands started before it, nothing is
    started after it, the run prints the failure line and the captured
    error stream, and the process ends with a non-zero status. *)
Theorem failing_command_stops_chain pre cmd cwd p post :
  trace r = (pre ++ Spawn cmd cwd (inr p) :: post)%list ->
  returncode p <> 0%Z ->
  (exists later,
      command_chain python_version = (spawned pre ++ cmd :: later)%list)
  /\ spawned post = []
  /\ post = [ Print (MsgCommandFailed (join " " cmd));
              Print (MsgStderr (stderr p)) ]
  /\ outcome r = Exit 1
  /\ exit_status (outcome r) <> 0%Z.
Proof.
  intros E NZ.
  pose proof (bootstrap_follows env project_dir project_name python_version
                description w) as F. cbv zeta in F. fold r in F.
  destruct (follows_failure _ _ _ F _ _ _ _ _ E NZ) as [-> Hr].
  destruct (follows_spawned_prefix _ _ _ F) as [later Hl].
  rewrite E, spawned_app in Hl. unfold failure_report in Hl.
  cbn [spawned] in Hl. rewrite <- app_assoc in Hl.
  split; [exists later; exact Hl|].
  split; [reflexivity|]. split; [reflexivity|].
  split; [exact Hr|]. rewrite Hr. discriminate.
Qed.

(** C10.  Whatever non-zero code a command exits with, the run exits
    through [sys.exit(1)]: the process status is 1. *)
Theorem failure_exit_status_is_one cmd cwd p :
  In (Spawn cmd cwd (inr p)) (trace r) ->
  returncode p <> 0%Z ->
  outcome r = Exit 1 /\ exit_status (outcome r) = 1%Z.
Proof.
  intros I NZ. apply in_split in I as (pre & post & E).
  pose proof (bootstrap_follows env project_dir project_name python_version
                description w) as F. cbv zeta in F. fold r in F.
  destruct (follows_failure _ _ _ F _ _ _ _ _ E NZ) as [_ Hr].
  rewrite Hr. split; reflexivity.
Qed.

End Chain.

Ltac find_in_list := repeat first [left; reflexivity | right].

Lemma failing_command_stops_chain_witness :
  returncode Sample.pyright_answer <> 0%Z
  /\ outcome Sample.ill_typed = Exit 1.
Proof.
  split; [discriminate|].
  refine (proj1 (proj2 (proj2 (proj2
            (failing_command_stops_chain
               Machine.machine Sample.dir "sample" "3.12" ""
               Machine.broken_types
               (firstn 42 (trace Sample.ill_typed))
               Sample.pyright Sample.dir Sample.pyright_answer
               (skipn 43 (trace Sample.ill_typed)) _ _))))).
  - vm_compute. reflexivity.
  - discriminate.
Defined.

Lemma failure_exit_status_is_one_witness :
  returncode Sample.pyright_answer = 2%Z
  /\ exit_status (outcome Sample.ill_typed) = 1%Z.
Proof.
  split; [reflexivity|].
  refine (proj2 (failure_exit_status_is_one
                   Machine.machine Sample.dir "sample" "3.12" ""
                   Machine.broken_types
                   Sample.pyright Sample.dir Sample.pyright_answer _ _)).
  - vm_compute. find_in_list.
  - discriminate.
Defined.

(** ** The rendered files *)

Lemma prefix_nth_error {A : Type} (l p rest : list A) (i : nat) (x : A) :
  l = (p ++ rest)%list -> nth_error p i = Some x -> nth_error l i = Some x.
Proof.
  intros -> H. rewrite nth_error_app1; [exact H|].
  apply nth_error_Some. congruence.
Qed.

Lemma rendered_files_paths (project_dir : Path)
      (project_name python_version description : string) :
  map fst (rendered_files project_dir project_name python_version description)
  = declared_files project_dir project_name.
Proof. reflexivity. Qed.

Lemma rendered_files_contents (dir1 dir2 : Path)
      (project_name python_version description : string) :
  map snd (rendered_files dir1 project_name python_version description)
  = map snd (rendered_files dir2 project_name python_version description).
Proof. reflexivity. Qed.

Lemma truediv_relative (p : Path) (segment : string) :
  startswith segment "/" = false ->
  p / segment = (p ++ parse_parts segment)%list.
Proof. unfold truediv. now intros ->. Qed.

Lemma split_on_cons (sep c : ascii) (s : string) :
  Ascii.eqb c sep = false ->
  exists l ls, split_on sep (String c s) = String c l :: ls.
Proof.
  intros H. cbn [split_on]. rewrite H.
  destruct (split_on sep s) as [|l ls]; eauto.
Qed.

(** The test module sits in a component that starts with [test_]. *)
Lemma test_module_parts (package : string) :
  exists l ls, parse_parts ("test_" ++ package ++ ".py") = String "t" l :: ls.
Proof.
  unfold parse_parts.
  destruct (split_on_cons "/" "t" ("est_" ++ package ++ ".py") eq_refl)
    as (l & ls & E).
  change ("test_" ++ package ++ ".py")
    with (String "t" ("est_" ++ package ++ ".py")).
  rewrite E. cbn. eauto.
Qed.

Lemma declared_files_below (project_dir : Path) (project_name : string) :
  startswith (package_name project_name) "/" = false ->
  declared_files project_dir project_name
  = map (app project_dir)
      [ ["pyproject.toml"];
        "src" :: (parse_parts (package_name project_name)
                    ++ ["__init__.py"])%list;
        "src" :: (parse_parts (package_name project_name)
                    ++ ["py.typed"])%list;
        ["tests"; "__init__.py"];
        "tests"
          :: parse_parts ("test_" ++ package_name project_name ++ ".py");
        [".pre-commit-config.yaml"];
        [".github"; "workflows"; "ci.yml"];
        [".gitignore"];
        ["README.md"] ].
Proof.
  intros R. unfold declared_files.
  rewrite !truediv_relative by (reflexivity || exact R).
  cbn [map]. rewrite <- !app_assoc. reflexivity.
Qed.

Lemma NoDup_map_injective {A B : Type} (f : A -> B) (l : list A) :
  (forall a b, f a = f b -> a = b) -> NoDup l -> NoDup (map f l).
Proof.
  intros Inj. induction 1 as [|x l Hx _ IH]; cbn; constructor; [|exact IH].
  intros I. apply in_map_iff in I as (y & E & Hy).
  apply Inj in E. subst y. contradiction.
Qed.

(** Unless the project name is an absolute path, the nine declared files
    are nine different paths.  (Paths are compared as [pathlib] compares
    them, component by component.) *)
Lemma declared_files_distinct (project_dir : Path) (project_name : string) :
  startswith (package_name project_name) "/" = false ->
  NoDup (declared_files project_dir project_name).
Proof.
  intros R. rewrite (declared_files_below _ _ R).
  apply NoDup_map_injective.
  { intros a b H. exact (app_inv_head _ _ _ H). }
  destruct (test_module_parts (package_name project_name))
    as (l & ls & ->).
  repeat constructor; cbn [In]; intros H;
    repeat match type of H with
      | _ \/ _ => destruct H as [H | H]
      | False => contradiction
      end;
    try discriminate H;
    injection H as H; apply app_inv_head in H; discriminate H.
Qed.

(** An absolute project name can bring the package below the target
    directory: the package init and the test package init are then one
    path. *)
Example absolute_name_repeats_a_path :
  nth_error (declared_files ["x"] "/x/tests") 1
  = nth_error (declared_files ["x"] "/x/tests") 3.
Proof. reflexivity. Qed.

Section Rendering.

Context {W : Type} (env : world W).
Variable project_dir : Path.
Variables project_name python_version description : string.
Variable w : W.

Let r : Run W unit :=
  bootstrap env project_dir project_name python_version description w.

Let files : list (Path * string) :=
  rendered_files project_dir project_name python_version description.

(** The writes of a run are the rendered files, in order, up to the point
    where the run stopped. *)
Lemma rendered_prefix :
  exists rest, files = (written (trace r) ++ rest)%list.
Proof.
  exact (follows_written_prefix _ _ _
           (bootstrap_follows env project_dir project_name python_version
              description w)).
Qed.

(** When the file system refuses nothing, all of them are written, whatever
    the commands do afterwards. *)
Lemma rendered_complete :
  forallb fs_granted (trace r) = true -> written (trace r) = files.
Proof.
  intros G.
  pose proof (bootstrap_follows env project_dir project_name python_version
                description w) as F. cbv zeta in F. fold r in F.
  change (plan project_dir project_name python_version description)
    with ((header project_dir project_name python_version
             ++ renders project_dir project_name python_version
                  description)
            ++ (checks project_dir project_name python_version
                  ++ [DoPrint MsgNextSteps]))%list in F.
  apply follows_app in F as [(t1 & t2 & E & F1 & F2) | [F1 N]].
  - rewrite E, written_app.
    destruct (follows_returned _ _ F1) as (-> & _ & _).
    destruct (follows_written_prefix _ _ _ F2) as [k Hk].
    cbn in Hk. symmetry in Hk. apply app_eq_nil in Hk as [-> _].
    rewrite app_nil_r. reflexivity.
  - destruct (follows_stopped_rendering _ _ _ F1 eq_refl N) as (B & _).
    rewrite G in B. discriminate B.
Qed.

(** C5.  The files a run renders are the declared ones in the declared
    order, each written once: always a leading part of the list, the whole
    list when no request to the file system is refused, and nine different
    paths unless the project name is an absolute path. *)
Theorem renders_declared_files :
  (exists rest,
      declared_files project_dir project_name
      = (map fst (written (trace r)) ++ rest)%list)
  /\ (forallb fs_granted (trace r) = true ->
      map fst (written (trace r))
      = declared_files project_dir project_name)
  /\ (startswith (package_name project_name) "/" = false ->
      NoDup (declared_files project_dir project_name)).
Proof.
  split; [|split].
  - destruct rendered_prefix as [rest E]. exists (map fst rest).
    rewrite <- map_app, <- E. symmetry. apply rendered_files_paths.
  - intros G. rewrite (rendered_complete G). apply rendered_files_paths.
  - apply declared_files_distinct.
Qed.

End Rendering.

Lemma renders_declared_files_witness :
  map fst (written (trace Sample.good)) = declared_files Sample.dir "sample"
  /\ NoDup (map fst (written (trace Sample.good))).
Proof.
  pose proof (renders_declared_files
                Machine.machine Sample.dir "sample" "3.12" ""
                Machine.fresh) as (_ & Hall & Hdistinct).
  assert (E : map fst (written (trace Sample.good))
              = declared_files Sample.dir "sample").
  { apply Hall. vm_compute. reflexivity. }
  split; [exact E|].
  rewrite E. apply Hdistinct. vm_compute. reflexivity.
Defined.

(** C4.  Two runs with the same project name, version and description hand
    the same bytes to each file they both reach, whatever their worlds (the
    second may start in the world the first one left); in the same directory
    they write the same paths too. *)
Theorem rendering_deterministic
        (W1 W2 : Type) (env1 : world W1) (env2 : world W2)
        (w1 : W1) (w2 : W2) (dir1 dir2 : Path)
        (project_name python_version description : string)
        (i : nat) (f1 f2 : Path * string) :
  nth_error
    (written (trace (bootstrap env1 dir1 project_name python_version
                       description w1))) i = Some f1 ->
  nth_error
    (written (trace (bootstrap env2 dir2 project_name python_version
                       description w2))) i = Some f2 ->
  snd f1 = snd f2 /\ (dir1 = dir2 -> f1 = f2).
Proof.
  intros H1 H2.
  destruct (rendered_prefix env1 dir1 project_name python_version
              description w1) as [k1 E1].
  destruct (rendered_prefix env2 dir2 project_name python_version
              description w2) as [k2 E2].
  apply (prefix_nth_error _ _ _ _ _ E1) in H1.
  apply (prefix_nth_error _ _ _ _ _ E2) in H2.
  split.
  - apply (map_nth_error snd) in H1. apply (map_nth_error snd) in H2.
    rewrite (rendered_files_contents dir1 dir2) in H1. congruence.
  - intros <-. congruence.
Qed.

Lemma rendering_deterministic_witness :
  nth 8 (written (trace Sample.good)) ([], "")
  = nth 8 (written (trace Sample.rerun)) ([], "").
Proof.
  refine (proj2 (rendering_deterministic
                   _ _ Machine.machine Machine.machine
                   Machine.fresh (final Sample.good) Sample.dir Sample.dir
                   "sample" "3.12" "" 8 _ _ _ _) eq_refl);
    vm_compute; reflexivity.
Defined.

(** On the machine, the second run writes what the first wrote, and each
    file holds the same bytes after either. *)
Example rerun_overwrites_identically :
  written (trace Sample.rerun) = written (trace Sample.good)
  /\ forallb (Sample.holds (final Sample.good)) (written (trace Sample.good))
     = true
  /\ forallb (Sample.holds (final Sample.rerun)) (written (trace Sample.good))
     = true.
Proof. split; [|split]; vm_compute; reflexivity. Qed.

(** ** The sample project *)

(** Two paths below the same directory are equal only if they continue in
    the same way. *)
Ltac below_same_dir H :=
  repeat rewrite <- app_assoc in H; apply app_inv_head in H.

Section SampleProject.

Context {W : Type} (env : world W).
Variable w : W.
Variable project_dir : Path.

Let tr : list event :=
  trace (bootstrap env project_dir "sample" "3.12" "" w).

Lemma sample_written (f : Path * string) :
  In f (written tr) -> In f (rendered_files project_dir "sample" "3.12" "").
Proof.
  destruct (rendered_prefix env project_dir "sample" "3.12" "" w)
    as [rest E].
  intros H. rewrite E. apply in_or_app. now left.
Qed.

Ltac which_file H :=
  apply sample_written in H;
  unfold rendered_files, templates in H; cbn [map fst snd In] in H;
  change (package_name "sample") with "sample" in H;
  change ("test_" ++ "sample" ++ ".py") with "test_sample.py" in H;
  rewrite !truediv_relative in * by reflexivity;
  repeat match type of H with
    | _ \/ _ => destruct H as [H | H]
    | False => contradiction
    end;
  apply pair_equal_spec in H as [Hp Hd];
  try (below_same_dir Hp; discriminate Hp).

(** C2.  For the project "sample" with version "3.12" and an empty
    description, whatever is written to pyproject.toml declares the name
    and the required Python version, and whatever is written to the test
    module imports from the package [sample] and asserts that [__doc__] is
    not [None]; both files are written when the file system refuses
    nothing. *)
Theorem sample_manifest_and_test_module :
  (forall data,
      In (project_dir / "pyproject.toml", data) (written tr) ->
      In ("name = " ++ dq ++ "sample" ++ dq) (lines data)
      /\ In ("requires-python = " ++ dq ++ ">=3.12" ++ dq) (lines data))
  /\ (forall data,
         In (project_dir / "tests" / "test_sample.py", data) (written tr) ->
         In "from sample import __doc__" (lines data)
         /\ In "    assert __doc__ is not None" (lines data))
  /\ (forallb fs_granted tr = true ->
      exists manifest test_module,
        In (project_dir / "pyproject.toml", manifest) (written tr)
        /\ In (project_dir / "tests" / "test_sample.py", test_module)
              (written tr)).
Proof.
  split; [|split].
  - intros data H. which_file H.
    subst data. split; vm_compute; find_in_list.
  - intros data H. which_file H.
    subst data. split; vm_compute; find_in_list.
  - intros G. subst tr. rewrite (rendered_complete env _ _ _ _ _ G).
    unfold rendered_files, templates. cbn [map fst snd In].
    do 2 eexists. split; [left; reflexivity|].
    do 4 right. left. reflexivity.
Qed.

End SampleProject.

Lemma sample_manifest_and_test_module_witness :
  In ("name = " ++ dq ++ "sample" ++ dq)
     (lines (snd (nth 0 (written (trace Sample.good)) ([], ""))))
  /\ In "from sample import __doc__"
        (lines (snd (nth 4 (written (trace Sample.good)) ([], ""))))
  /\ exists manifest test_module,
      In (Sample.dir / "pyproject.toml", manifest)
         (written (trace Sample.good))
      /\ In (Sample.dir / "tests" / "test_sample.py", test_module)
            (written (trace Sample.good)).
Proof.
  pose proof (sample_manifest_and_test_module
                Machine.machine Machine.fresh Sample.dir)
    as (Hmanifest & Htest & Hboth).
  split; [|split].
  - refine (proj1 (Hmanifest _ _)). vm_compute. find_in_list.
  - refine (proj1 (Htest _ _)). vm_compute. find_in_list.
  - apply Hboth. vm_compute. reflexivity.
Defined.

(** ** An unwritable target directory *)

Lemma parent_of_child (dir : Path) (name : string) :
  startswith name "/" = false ->
  parse_parts name = [name] ->
  parent (dir / name) = dir.
Proof.
  intros R P. rewrite (truediv_relative _ _ R), P.
  apply removelast_last.
Qed.

Section Stepping.

Context {W : Type} (env : world W).

Lemma bind_print (m : message) (k : unit -> M W unit) (w : W) :
  bind (print m) k w
  = {| trace := Print m :: trace (k tt w);
       final := final (k tt w);
       outcome := outcome (k tt w) |}.
Proof. reflexivity. Qed.

Lemma bind_mkdir_granted (p : Path) (k : unit -> M W unit) (w w1 : W) :
  path_mkdir env p w = (None, w1) ->
  bind (mkdir env p) k w
  = {| trace := Mkdir p None :: trace (k tt w1);
       final := final (k tt w1);
       outcome := outcome (k tt w1) |}.
Proof. intros H. unfold bind, mkdir. rewrite H. reflexivity. Qed.

Lemma bind_create_file_refused (path : Path) (content : string)
      (k : unit -> M W unit) (w w1 w2 : W) (e : exception) :
  path_mkdir env (parent path) w = (None, w1) ->
  path_write_text env path (lstrip (dedent content)) w1 = (Some e, w2) ->
  bind (create_file env path content) k w
  = {| trace := [ Mkdir (parent path) None;
                  WriteText path (lstrip (dedent content)) (Some e) ];
       final := w2;
       outcome := Raise e |}.
Proof.
  intros Hm Hw. unfold bind, create_file, bind, mkdir, write_text.
  rewrite Hm. cbn. rewrite Hw. reflexivity.
Qed.

End Stepping.

Section Refusal.

Context {W : Type} (env : world W).
Variable project_dir : Path.
Variables project_name python_version description : string.
Variable w : W.

Let r : Run W unit :=
  bootstrap env project_dir project_name python_version description w.

(** A refused request ends the run with the exception, before any command
    is started. *)
Lemma refused_request_is_fatal :
  forallb fs_granted (trace r) = false ->
  spawned (trace r) = [] /\ exists e, outcome r = Raise e.
Proof.
  intros G.
  pose proof (bootstrap_follows env project_dir project_name python_version
                description w) as F. cbv zeta in F. fold r in F.
  change (plan project_dir project_name python_version description)
    with ((header project_dir project_name python_version
             ++ renders project_dir project_name python_version
                  description)
            ++ (checks project_dir project_name python_version
                  ++ [DoPrint MsgNextSteps]))%list in F.
  apply follows_app in F as [(t1 & t2 & E & F1 & F2) | [F1 N]].
  - destruct (follows_returned _ _ F1) as (_ & _ & G1).
    pose proof (follows_fs_free _ _ _ F2 eq_refl) as G2.
    rewrite E, forallb_app, G1, G2 in G. discriminate G.
  - destruct (follows_stopped_rendering _ _ _ F1 eq_refl N) as (_ & S & R).
    split; assumption.
Qed.

(** With the target directory unwritable, the refusal comes on the first
    file, the manifest. *)
Lemma refused_on_manifest :
  unwritable env project_dir w ->
  exists e data,
    trace r
    = [ Print (MsgBootstrapping project_name);
        Print (MsgDirectory project_dir);
        Print (MsgPackage (package_name project_name));
        Print (MsgPython python_version);
        Mkdir project_dir None;
        Mkdir project_dir None;
        WriteText (project_dir / "pyproject.toml") data (Some e) ]
    /\ outcome r = Raise e.
Proof.
  intros [Hdir Hwrite]. subst r.
  pose proof (parent_of_child project_dir "pyproject.toml" eq_refl eq_refl)
    as Hparent.
  pose proof (Hwrite (project_dir / "pyproject.toml")
                (lstrip (dedent
                   (Templates.pyproject_toml project_name description
                      python_version (package_name project_name))))
                Hparent) as Hw.
  destruct (path_write_text env (project_dir / "pyproject.toml")
              (lstrip (dedent
                 (Templates.pyproject_toml project_name description
                    python_version (package_name project_name)))) w)
    as [[e|] w1] eqn:E; cbn in Hw; [|contradiction].
  exists e. eexists.
  unfold bootstrap. rewrite !bind_print.
  rewrite (bind_mkdir_granted env _ _ _ _ Hdir).
  rewrite <- Hparent in Hdir at 1.
  rewrite (bind_create_file_refused env _ _ _ _ _ _ _ Hdir E).
  cbn [trace outcome]. rewrite Hparent.
  split; reflexivity.
Qed.

(** C7.  A refused file-system request is fatal at once and no command is
    started in that run; with an unwritable target directory the run
    prints its header, finds the directory, and is refused on the first
    file it renders, the manifest. *)
Theorem unwritable_target_aborts :
  (forallb fs_granted (trace r) = false ->
   spawned (trace r) = [] /\ exists e, outcome r = Raise e)
  /\ (unwritable env project_dir w ->
      exists e data,
        trace r
        = [ Print (MsgBootstrapping project_name);
            Print (MsgDirectory project_dir);
            Print (MsgPackage (package_name project_name));
            Print (MsgPython python_version);
            Mkdir project_dir None;
            Mkdir project_dir None;
            WriteText (project_dir / "pyproject.toml") data (Some e) ]
        /\ outcome r = Raise e
        /\ spawned (trace r) = []
        /\ exit_status (outcome r) = 1%Z).
Proof.
  split; [exact refused_request_is_fatal|].
  intros U. destruct (refused_on_manifest U) as (e & data & Ht & Ho).
  exists e, data. rewrite Ht, Ho. repeat split.
Qed.

End Refusal.

(** On the machine, the read-only directory of the locked disk is
    unwritable. *)
Lemma locked_is_unwritable :
  unwritable Machine.machine Sample.dir Machine.locked.
Proof.
  split; [reflexivity|].
  intros p data H.
  destruct p as [|a [|b [|c [|d p]]]]; try discriminate H.
  injection H as -> ->. cbn. discriminate.
Qed.

Lemma unwritable_target_aborts_witness :
  forallb fs_granted (trace Sample.refused) = false
  /\ spawned (trace Sample.refused) = []
  /\ exit_status (outcome Sample.refused) = 1%Z.
Proof.
  pose proof (unwritable_target_aborts
                Machine.machine Sample.dir "sample" "3.12" ""
                Machine.locked) as [Hfatal Hfirst].
  split; [vm_compute; reflexivity|]. split.
  - apply Hfatal. vm_compute. reflexivity.
  - destruct (Hfirst locked_is_unwritable) as (e & data & _ & _ & _ & Hs).
    exact Hs.
Defined.

(** ** The renderer: [dedent] followed by [lstrip] *)

Lemma append_empty_r (s : string) : s ++ "" = s.
Proof. induction s as [|c s IH]; cbn; [reflexivity | now rewrite IH]. Qed.

Lemma prefix_drop (p s : string) :
  prefix p s = true -> s = p ++ drop (String.length p) s.
Proof.
  revert s. induction p as [|a p IH]; intros s H; [reflexivity|].
  destruct s as [|b s]; [discriminate H|]. cbn in H |- *.
  destruct (ascii_dec a b) as [->|]; [|discriminate H].
  now rewrite <- (IH s H).
Qed.

Lemma prefix_append (p s : string) : prefix p (p ++ s) = true.
Proof.
  induction p as [|a p IH]; cbn; [apply prefix_empty|].
  destruct (ascii_dec a a); [exact IH | contradiction].
Qed.

Lemma drop_append (p s : string) : drop (String.length p) (p ++ s) = s.
Proof. induction p as [|a p IH]; cbn; [reflexivity | exact IH]. Qed.

Lemma all_chars_append (q : ascii -> bool) (a b : string) :
  all_chars q (a ++ b) = all_chars q a && all_chars q b.
Proof.
  induction a as [|c a IH]; cbn; [reflexivity|].
  now rewrite IH, andb_assoc.
Qed.

Lemma blank_char_is_space (c : ascii) :
  is_blank_char c = true -> isspace_char c = true.
Proof. each_char c. Qed.

Lemma text_not_blank (t : string) :
  starts_with_text t = true ->
  whitespace_only t = false /\ leading_whitespace t = "".
Proof.
  destruct t as [|c t]; [discriminate|]. cbn. intros H.
  apply negb_true_iff in H.
  destruct (is_blank_char c) eqn:B; [|split; reflexivity].
  apply blank_char_is_space in B. congruence.
Qed.

Lemma leading_whitespace_append (m t : string) :
  whitespace_only m = true ->
  leading_whitespace (m ++ t) = m ++ leading_whitespace t.
Proof.
  unfold whitespace_only. induction m as [|c m IH]; cbn; [reflexivity|].
  intros H. apply andb_true_iff in H as [-> Hm]. now rewrite (IH Hm).
Qed.

Lemma split_on_append (sep : ascii) (l s : string) :
  all_chars (fun c => negb (Ascii.eqb c sep)) l = true ->
  split_on sep (l ++ String sep s) = l :: split_on sep s.
Proof.
  induction l as [|c l IH]; cbn.
  - intros _. now rewrite Ascii.eqb_refl.
  - intros H. apply andb_true_iff in H as [Hc Hl].
    apply negb_true_iff in Hc. now rewrite Hc, (IH Hl).
Qed.

(** Splitting at the line breaks undoes joining with them. *)
Lemma split_join (l : string) (ls : list string) :
  forallb no_newline (l :: ls) = true ->
  split_on newline (join nl (l :: ls)) = l :: ls.
Proof.
  revert l. induction ls as [|l' ls IH]; intros l H.
  - cbn in H |- *. rewrite andb_true_r in H.
    now apply split_on_no_separator.
  - cbn [forallb] in H. apply andb_true_iff in H as [Hl H].
    change (join nl (l :: l' :: ls))
      with (l ++ String newline (join nl (l' :: ls))).
    rewrite (split_on_append _ _ _ Hl). now rewrite (IH l' H).
Qed.

Lemma fold_margin_stable (indents : list string) (m : string) :
  Forall (fun i => startswith i m = true) indents ->
  fold_left update_margin indents (Some m) = Some m.
Proof.
  induction 1 as [|i indents Hi _ IH]; [reflexivity|].
  cbn. now rewrite Hi.
Qed.

Lemma lstrip_text (s : string) : starts_with_text s = true -> lstrip s = s.
Proof.
  destruct s as [|c s]; [discriminate|]. cbn. intros H.
  apply negb_true_iff in H. now rewrite H.
Qed.

Lemma join_starts_with_text (l : string) (ls : list string) :
  starts_with_text l = true -> starts_with_text (join nl (l :: ls)) = true.
Proof.
  destruct l as [|c l]; [discriminate|]. intros H.
  destruct ls; exact H.
Qed.

Section Margin.

Variable margin : string.
Hypothesis margin_blank : whitespace_only margin = true.

(** A line that carries the margin and is not blank has an indentation
    that starts with the margin. *)
Lemma carried_indent (l : string) :
  carries_margin margin l = true ->
  whitespace_only l = false ->
  startswith (leading_whitespace l) margin = true.
Proof.
  unfold carries_margin. intros C B. rewrite B in C. cbn in C.
  rewrite (prefix_drop _ _ C).
  rewrite (leading_whitespace_append _ _ margin_blank).
  apply prefix_append.
Qed.

Lemma dedented_line_correct (l : string) :
  carries_margin margin l = true ->
  remove_margin margin (blank_out l) = dedented_line margin l.
Proof.
  unfold carries_margin, remove_margin, blank_out, dedented_line.
  intros C. destruct (whitespace_only l) eqn:B.
  - unfold startswith. destruct (prefix margin ""); [|reflexivity].
    now destruct (String.length margin).
  - cbn in C. unfold startswith in C |- *. now rewrite C.
Qed.

End Margin.

(** [dedent] followed by [lstrip] on a template of the expected shape. *)
Lemma render_margin (margin first : string) (rest : list string) :
  whitespace_only margin = true ->
  startswith first margin = true ->
  starts_with_text (drop (String.length margin) first) = true ->
  forallb no_newline (first :: rest) = true ->
  forallb (carries_margin margin) rest = true ->
  lstrip (dedent (join nl (first :: rest)))
  = join nl (map (dedented_line margin) (first :: rest)).
Proof.
  intros margin_blank Hfirst Htext Hnl Hrest.
  destruct (text_not_blank _ Htext) as [Tblank Tlead].
  assert (Bfirst : whitespace_only first = false).
  { rewrite (prefix_drop _ _ Hfirst). unfold whitespace_only.
    rewrite all_chars_append. fold (whitespace_only margin).
    rewrite margin_blank. exact Tblank. }
  assert (Lfirst : leading_whitespace first = margin).
  { rewrite (prefix_drop _ _ Hfirst).
    rewrite (leading_whitespace_append _ _ margin_blank), Tlead.
    apply append_empty_r. }
  assert (Cfirst : carries_margin margin first = true).
  { unfold carries_margin. rewrite Hfirst. apply orb_true_r. }
  assert (Call : forall l, In l (first :: rest) ->
                           carries_margin margin l = true).
  { intros l [<-|I]; [exact Cfirst|].
    now apply (proj1 (forallb_forall _ _) Hrest). }
  assert (Hmargin :
            fold_left update_margin
              (map leading_whitespace
                 (filter has_text (map blank_out (first :: rest)))) None
            = Some margin).
  { assert (Kfirst : blank_out first = first).
    { unfold blank_out. now rewrite Bfirst. }
    assert (Tfirst : has_text first = true).
    { destruct first; [discriminate Bfirst | reflexivity]. }
    cbn [map filter]. rewrite Kfirst, Tfirst.
    cbn [map fold_left update_margin]. rewrite Lfirst.
    apply fold_margin_stable, Forall_forall.
    intros i Hi. apply in_map_iff in Hi as (l & <- & Hl).
    apply filter_In in Hl as [Hl Ht].
    apply in_map_iff in Hl as (l0 & <- & Hl0).
    unfold blank_out in Ht |- *.
    destruct (whitespace_only l0) eqn:B0; [discriminate Ht|].
    apply (carried_indent _ margin_blank); [|exact B0].
    now apply (proj1 (forallb_forall _ _) Hrest). }
  assert (Hfirst' : starts_with_text (dedented_line margin first) = true).
  { unfold dedented_line. now rewrite Bfirst. }
  unfold dedent. rewrite (split_join _ _ Hnl), Hmargin.
  assert (Hlines :
            match margin with
            | String c m =>
                join nl (map (remove_margin (String c m))
                           (map blank_out (first :: rest)))
            | "" => join nl (map blank_out (first :: rest))
            end
            = join nl (map (dedented_line margin) (first :: rest))).
  { destruct margin as [|c m].
    - reflexivity.
    - rewrite map_map. f_equal. apply map_ext_in. intros l Hl.
      apply dedented_line_correct. now apply Call. }
  destruct margin as [|c m]; rewrite Hlines;
    apply lstrip_text; cbn [map]; now apply join_starts_with_text.
Qed.


(** C6 as stated fails.  In front of a text the renderer strips every blank
    line, not a single one; and when a placeholder brings a line without
    indentation, no indentation is common any more, yet the first line loses
    its own (and the closing blank line is emptied). *)
Lemma renderer_strips_more :
  written (trace (create_file Machine.machine Sample.notes
                    Sample.two_blank_lines Machine.fresh))
  = [(Sample.notes, "x")]
  /\ spec_render Sample.two_blank_lines = nl ++ "x"
  /\ (lstrip (dedent Sample.long_readme) =? spec_render Sample.long_readme)
     = false.
Proof. split; [|split]; vm_compute; reflexivity. Qed.

Section Renderer.

Context {W : Type} (env : world W).

(** For a template of the expected shape, [create_file] hands to the file
    the template without its margin, if the directory can be made. *)
Lemma create_file_writes_dedented
        (path : Path) (margin first : string) (rest : list string) (w : W) :
  whitespace_only margin = true ->
  startswith first margin = true ->
  starts_with_text (drop (String.length margin) first) = true ->
  forallb no_newline (first :: rest) = true ->
  forallb (carries_margin margin) rest = true ->
  let r := create_file env path (join nl (first :: rest)) w in
  let data := join nl (map (dedented_line margin) (first :: rest)) in
  match fst (path_mkdir env (parent path) w) with
  | None => written (trace r) = [(path, data)]
  | Some _ => written (trace r) = []
  end.
Proof.
  intros Hm Hf Ht Hn Hr. cbv zeta.
  unfold create_file, bind, mkdir, write_text.
  rewrite (render_margin margin first rest Hm Hf Ht Hn Hr).
  destruct (path_mkdir env (parent path) w) as [[e|] w1]; cbn;
    [reflexivity|].
  destruct (path_write_text env path _ w1) as [[e|] w2]; reflexivity.
Qed.

End Renderer.

(** ** The templates of the script have the expected shape *)

Lemma all_chars_replace_from (q : ascii -> bool) (old new : string)
      (skip : nat) (s : string) :
  all_chars q new = true -> all_chars q s = true ->
  all_chars q (replace_from old new skip s) = true.
Proof.
  intros Hnew. revert skip. induction s as [|c s IH]; intros skip Hs;
    [reflexivity|].
  cbn [all_chars] in Hs. apply andb_true_iff in Hs as [Hc Hs].
  cbn [replace_from]. destruct skip as [|k]; [|now apply IH].
  destruct (prefix old (String c s)).
  - rewrite all_chars_append, Hnew. now apply IH.
  - cbn [all_chars]. rewrite Hc. now apply IH.
Qed.

Lemma all_chars_interleave (q : ascii -> bool) (new s : string) :
  all_chars q new = true -> all_chars q s = true ->
  all_chars q (interleave new s) = true.
Proof.
  intros Hnew. induction s as [|c s IH]; intros Hs; [reflexivity|].
  cbn [all_chars] in Hs. apply andb_true_iff in Hs as [Hc Hs].
  cbn [interleave all_chars]. rewrite Hc, all_chars_append, Hnew.
  now apply IH.
Qed.

Lemma all_chars_replace (q : ascii -> bool) (old new s : string) :
  all_chars q new = true -> all_chars q s = true ->
  all_chars q (replace old new s) = true.
Proof.
  intros Hnew Hs. destruct old as [|a old]; cbn [replace].
  - rewrite all_chars_append, Hnew. now apply all_chars_interleave.
  - now apply all_chars_replace_from.
Qed.

Lemma normalise_char_no_newline (c : ascii) :
  negb (Ascii.eqb c newline) = true ->
  negb (Ascii.eqb (lower_char (hyphen_to_underscore c)) newline) = true.
Proof. each_char c. Qed.

Lemma package_name_no_newline (name : string) :
  no_newline name = true -> no_newline (package_name name) = true.
Proof.
  unfold no_newline. rewrite package_name_map, all_chars_map.
  apply all_chars_impl. exact normalise_char_no_newline.
Qed.

Section Shape.

Variables project_name description python_version package_name : string.
Hypothesis name_one_line : no_newline project_name = true.
Hypothesis description_one_line : no_newline description = true.
Hypothesis version_one_line : no_newline python_version = true.
Hypothesis package_one_line : no_newline package_name = true.

Let dotless_one_line : no_newline (replace "." "" python_version) = true :=
  all_chars_replace _ "." "" python_version eq_refl version_one_line.

Ltac one_line :=
  cbn [forallb]; unfold no_newline in *;
  rewrite ?all_chars_append;
  rewrite ?name_one_line, ?description_one_line, ?version_one_line,
    ?package_one_line, ?dotless_one_line;
  reflexivity.

Ltac margins :=
  cbn [forallb]; unfold carries_margin, startswith;
  cbn; rewrite ?prefix_empty, ?orb_true_r; reflexivity.

Ltac shaped lines :=
  unfold Templates.text, lines;
  apply render_margin;
  [ reflexivity | reflexivity | reflexivity | one_line | margins ].

Lemma pyproject_toml_rendered :
  lstrip (dedent (Templates.pyproject_toml project_name description
                    python_version package_name))
  = join nl (map (dedented_line Templates.margin)
               (Templates.pyproject_toml_lines project_name description
                  python_version package_name)).
Proof.
  unfold Templates.pyproject_toml.
  shaped Templates.pyproject_toml_lines.
Qed.

Lemma src_init_py_rendered :
  lstrip (dedent (Templates.src_init_py project_name description))
  = join nl (map (dedented_line Templates.margin)
               (Templates.src_init_py_lines project_name description)).
Proof. unfold Templates.src_init_py. shaped Templates.src_init_py_lines. Qed.

Lemma test_module_py_rendered :
  lstrip (dedent (Templates.test_module_py package_name))
  = join nl (map (dedented_line Templates.margin)
               (Templates.test_module_py_lines package_name)).
Proof.
  unfold Templates.test_module_py.
  shaped Templates.test_module_py_lines.
Qed.

Lemma pre_commit_config_yaml_rendered :
  lstrip (dedent Templates.pre_commit_config_yaml)
  = join nl (map (dedented_line Templates.margin)
               Templates.pre_commit_config_yaml_lines).
Proof.
  unfold Templates.pre_commit_config_yaml.
  shaped Templates.pre_commit_config_yaml_lines.
Qed.

Lemma ci_yml_rendered :
  lstrip (dedent (Templates.ci_yml python_version))
  = join nl (map (dedented_line Templates.margin)
               (Templates.ci_yml_lines python_version)).
Proof. unfold Templates.ci_yml. shaped Templates.ci_yml_lines. Qed.

Lemma gitignore_rendered :
  lstrip (dedent Templates.gitignore)
  = join nl (map (dedented_line Templates.margin) Templates.gitignore_lines).
Proof. unfold Templates.gitignore. shaped Templates.gitignore_lines. Qed.

Lemma readme_md_rendered :
  lstrip (dedent (Templates.readme_md project_name description))
  = join nl (map (dedented_line Templates.margin)
               (Templates.readme_md_lines project_name description)).
Proof. unfold Templates.readme_md. shaped Templates.readme_md_lines. Qed.

End Shape.

(** With a project name, version and description that hold no line break,
    every file of the script is its template without the margin. *)
Lemma rendered_files_dedented (project_dir : Path)
      (project_name python_version description : string) :
  no_newline project_name = true ->
  no_newline python_version = true ->
  no_newline description = true ->
  rendered_files project_dir project_name python_version description
  = dedented_files project_dir project_name python_version description.
Proof.
  intros Hn Hv Hd.
  pose proof (package_name_no_newline _ Hn) as Hp.
  unfold rendered_files, templates, dedented_files, without_margin.
  cbn [map fst snd].
  rewrite (pyproject_toml_rendered _ _ _ _ Hn Hd Hv Hp).
  rewrite (src_init_py_rendered _ _ Hn Hd).
  rewrite (test_module_py_rendered _ Hp).
  rewrite pre_commit_config_yaml_rendered.
  rewrite (ci_yml_rendered _ Hv).
  rewrite gitignore_rendered.
  rewrite (readme_md_rendered _ _ Hn Hd).
  reflexivity.
Qed.

(** C6, amended.  For a template whose first line is the margin followed by
    text and whose other lines are blank or start with the margin, the
    renderer removes the margin from every line that is not blank, empties
    the blank lines, and hands the result to the file unchanged; the nine
    templates of the script are rendered that way whenever the project name,
    the version and the description hold no line break. *)
Theorem renderer_removes_margin :
  (forall (W : Type) (env : world W) (path : Path)
          (margin first : string) (rest : list string) (w : W),
      whitespace_only margin = true ->
      startswith first margin = true ->
      starts_with_text (drop (String.length margin) first) = true ->
      forallb no_newline (first :: rest) = true ->
      forallb (carries_margin margin) rest = true ->
      let r := create_file env path (join nl (first :: rest)) w in
      let data := join nl (map (dedented_line margin) (first :: rest)) in
      match fst (path_mkdir env (parent path) w) with
      | None => written (trace r) = [(path, data)]
      | Some _ => written (trace r) = []
      end)
  /\ (forall (project_dir : Path)
             (project_name python_version description : string),
         no_newline project_name = true ->
         no_newline python_version = true ->
         no_newline description = true ->
         rendered_files project_dir project_name python_version description
         = dedented_files project_dir project_name python_version
             description).
Proof.
  split.
  - intros W env. exact (create_file_writes_dedented env).
  - exact rendered_files_dedented.
Qed.

Lemma renderer_removes_margin_witness :
  written (trace (create_file Machine.machine (Sample.dir / ".gitignore")
                    Templates.gitignore Machine.fresh))
  = [(Sample.dir / ".gitignore", without_margin Templates.gitignore_lines)]
  /\ rendered_files Sample.dir "sample" "3.12" ""
     = dedented_files Sample.dir "sample" "3.12" "".
Proof.
  split.
  - refine (proj1 renderer_removes_margin
              _ Machine.machine (Sample.dir / ".gitignore") Templates.margin
              (hd "" Templates.gitignore_lines)
              (tl Templates.gitignore_lines) Machine.fresh _ _ _ _ _);
      vm_compute; reflexivity.
  - apply (proj2 renderer_removes_margin); vm_compute; reflexivity.
Defined.

(** * Further properties of the script *)

(** ** How a run can end *)

Lemma follows_outcome steps tr r :
  follows steps tr r -> r = Ok tt \/ r = Exit 1 \/ exists e, r = Raise e.
Proof. induction 1; eauto. Qed.


(** A run that returns printed every line of the plan, and all its commands
    exited with zero. *)
Lemma follows_returned_clean steps tr :
  follows steps tr (Ok tt) ->
  forallb completed_ok tr = true /\ printed tr = plan_printed steps.
Proof.
  remember (Ok tt) as r eqn:E. intros F.
  induction F as [ | m rest tr r _ IH | p rest tr r _ IH | p e rest
                 | path content rest tr r _ IH | path content e rest
                 | path content e rest | cmd cwd p rest tr r Hz _ IH
                 | cmd cwd p rest Hnz | cmd cwd e rest ];
    try discriminate E; cbn;
    try (destruct (IH E) as (Hc & Hp); rewrite ?Hc, ?Hp);
    try (apply Z.eqb_eq in Hz; rewrite Hz);
    split; reflexivity.
Qed.

Lemma follows_stops_on_exception steps tr r :
  follows steps tr r -> stops_on_exception tr r.
Proof. induction 1; cbn; auto. Qed.

Lemma stops_on_exception_at tr r pre ev post e :
  stops_on_exception tr r ->
  tr = (pre ++ ev :: post)%list ->
  raised ev = Some e ->
  post = [] /\ r = Raise e.
Proof.
  revert tr. induction pre as [|x pre IH]; intros tr S -> R; cbn in S.
  - now rewrite R in S.
  - destruct (raised x).
    + destruct S as [S _]. destruct pre; discriminate S.
    + eauto.
Qed.

(** A [Created] line is printed for exactly the writes that were granted,
    when only [create_file] prints such lines. *)
Lemma follows_created steps tr r :
  follows steps tr r ->
  forallb prints_no_created steps = true ->
  created tr = granted_writes tr.
Proof.
  induction 1 as [ | m rest tr r _ IH | p rest tr r _ IH | p e rest
                 | path content rest tr r _ IH | path content e rest
                 | path content e rest | cmd cwd p rest tr r Hz _ IH
                 | cmd cwd p rest Hnz | cmd cwd e rest ];
    cbn [forallb]; intros P; try reflexivity;
    apply andb_true_iff in P as [P0 P]; cbn; auto.
  - destruct m; cbn; auto. discriminate P0.
  - now rewrite (IH P).
Qed.

(** A started command is a [run] step of the plan. *)
Lemma follows_spawn_planned steps tr r cmd cwd answer :
  follows steps tr r ->
  In (Spawn cmd cwd answer) tr ->
  In (DoRun cmd cwd) steps.
Proof.
  induction 1; unfold failure_report; cbn [In]; intros I;
    repeat match type of I with
      | _ \/ _ => destruct I as [I | I]
      | False => contradiction
      end;
    try discriminate I;
    try (injection I as <- <- _; left; reflexivity);
    auto.
Qed.

(** Every write comes right after the granted request for its directory,
    and no trace begins with a write. *)
Lemma follows_mkdir_first steps tr r :
  follows steps tr r ->
  (forall p d a, nth_error tr 0 <> Some (WriteText p d a))
  /\ forall i p d a,
      nth_error tr (S i) = Some (WriteText p d a) ->
      nth_error tr i = Some (Mkdir (parent p) None).
Proof.
  induction 1 as [ | m rest tr r _ [IH0 IH] | q rest tr r _ [IH0 IH]
                 | q e rest | path content rest tr r _ [IH0 IH]
                 | path content e rest | path content e rest
                 | cmd cwd q rest tr r Hz _ [IH0 IH]
                 | cmd cwd q rest Hnz | cmd cwd e rest ];
    (split; [cbn; intros; discriminate|]); intros i p d a E.
  - destruct i; discriminate E.
  - destruct i as [|i]; cbn in E |- *; [now apply IH0 in E | eauto].
  - destruct i as [|i]; cbn in E |- *; [now apply IH0 in E | eauto].
  - destruct i as [|[|i]]; discriminate E.
  - destruct i as [|[|[|i]]]; cbn in E |- *.
    + injection E as <- _ _. reflexivity.
    + discriminate E.
    + now apply IH0 in E.
    + eauto.
  - destruct i as [|[|i]]; discriminate E.
  - destruct i as [|[|i]]; cbn in E |- *; try discriminate E.
    injection E as <- _ _. reflexivity.
  - destruct i as [|i]; cbn in E |- *; [now apply IH0 in E | eauto].
  - unfold failure_report in E.
    destruct i as [|[|[|i]]]; discriminate E.
  - destruct i as [|[|i]]; discriminate E.
Qed.

Lemma split_after_quiet (t1 t2 pre post : list event) cmd cwd answer :
  spawned t1 = [] ->
  (t1 ++ t2 = pre ++ Spawn cmd cwd answer :: post)%list ->
  exists pre2,
    pre = (t1 ++ pre2)%list /\ t2 = (pre2 ++ Spawn cmd cwd answer :: post)%list.
Proof.
  revert pre. induction t1 as [|x t1 IH]; intros pre Q E.
  - exists pre. split; [reflexivity | exact E].
  - destruct pre as [|y pre]; cbn in E; injection E as -> E.
    + discriminate Q.
    + assert (Q1 : spawned t1 = []) by (destruct y; cbn in Q; congruence).
      destruct (IH pre Q1 E) as (pre2 & -> & ->).
      exists pre2. split; reflexivity.
Qed.

Section Outcomes.

Context {W : Type} (env : world W).
Variable project_dir : Path.
Variables project_name python_version description : string.
Variable w : W.

Let r : Run W unit :=
  bootstrap env project_dir project_name python_version description w.

Let followed :
  follows (plan project_dir project_name python_version description)
          (trace r) (outcome r) :=
  bootstrap_follows env project_dir project_name python_version
    description w.


(** A run that ends with status 0 has rendered the nine files, started the
    six commands in order, and printed exactly the lines of the source,
    nothing of what the commands wrote. *)
Theorem status_zero_means_all_done :
  exit_status (outcome r) = 0%Z ->
  written (trace r)
  = rendered_files project_dir project_name python_version description
  /\ spawned (trace r) = command_chain python_version
  /\ printed (trace r)
     = success_lines project_dir project_name python_version.
Proof.
  intros Z.
  assert (E : outcome r = Ok tt).
  { destruct (follows_outcome _ _ _ followed) as [E | [E | [e E]]];
      [exact E | rewrite E in Z; discriminate Z
       | rewrite E in Z; discriminate Z]. }
  pose proof followed as F. rewrite E in F.
  destruct (follows_returned _ _ F) as (Hw & Hs & _).
  destruct (follows_returned_clean _ _ F) as (_ & Hp).
  rewrite Hw, Hs, Hp. repeat split.
Qed.

(** An exception the world answers with is never caught: the refused
    request, or the command that could not be started, is the last event of
    the run, and the exception ends the process with status 1. *)
Theorem world_exception_is_fatal pre ev post e :
  trace r = (pre ++ ev :: post)%list ->
  raised ev = Some e ->
  post = [] /\ outcome r = Raise e /\ exit_status (outcome r) = 1%Z.
Proof.
  intros E R.
  destruct (stops_on_exception_at _ _ _ _ _ _
              (follows_stops_on_exception _ _ _ followed) E R) as [-> Hr].
  rewrite Hr. repeat split.
Qed.

(** Every command is one of the six of the chain and is started in the
    project directory. *)
Theorem commands_run_in_project_dir cmd cwd answer :
  In (Spawn cmd cwd answer) (trace r) ->
  cwd = project_dir /\ In cmd (command_chain python_version).
Proof.
  intros I. apply (follows_spawn_planned _ _ _ _ _ _ followed) in I.
  unfold plan, header, renders, checks, templates in I.
  cbn [In app map] in I.
  repeat match type of I with
    | _ \/ _ => destruct I as [I | I]
    | False => contradiction
    end;
    try discriminate I;
    injection I as <- <-; (split; [reflexivity|]);
    unfold command_chain; find_in_list.
Qed.

(** No command is started before the nine files are written: at the first
    spawn the whole rendering is done and granted, and nothing is written
    afterwards. *)
Theorem commands_start_after_rendering pre cmd cwd answer post :
  trace r = (pre ++ Spawn cmd cwd answer :: post)%list ->
  written pre
  = rendered_files project_dir project_name python_version description
  /\ forallb fs_granted (trace r) = true
  /\ written post = [].
Proof.
  intros E. pose proof followed as F.
  change (plan project_dir project_name python_version description)
    with ((header project_dir project_name python_version
             ++ renders project_dir project_name python_version
                  description)
            ++ (checks project_dir project_name python_version
                  ++ [DoPrint MsgNextSteps]))%list in F.
  apply follows_app in F as [(t1 & t2 & Et & F1 & F2) | [F1 N]].
  - destruct (follows_returned _ _ F1) as (Hw & Hs & G1).
    pose proof (follows_fs_free _ _ _ F2 eq_refl) as G2.
    destruct (follows_written_prefix _ _ _ F2) as [k Hk].
    cbn in Hk. symmetry in Hk. apply app_eq_nil in Hk as [W2 _].
    rewrite Et in E.
    destruct (split_after_quiet _ _ _ _ _ _ _ Hs E) as (pre2 & -> & E2).
    rewrite E2, written_app in W2. cbn in W2.
    apply app_eq_nil in W2 as [Wpre Wpost].
    rewrite written_app, Hw, Wpre, app_nil_r, Et, forallb_app, G1, G2.
    repeat split. exact Wpost.
  - destruct (follows_stopped_rendering _ _ _ F1 eq_refl N) as (_ & S & _).
    rewrite E, spawned_app in S. cbn in S.
    destruct (spawned pre); discriminate S.
Qed.

(** The run prints a [Created] line for exactly the files whose write was
    granted, in the order of the writes. *)
Theorem created_lines_match_writes :
  created (trace r) = granted_writes (trace r).
Proof. exact (follows_created _ _ _ followed eq_refl). Qed.

(** No file is written before its directory was asked for and granted: the
    event before each write is the granted request for the parent. *)
Theorem write_follows_mkdir i p data answer :
  nth_error (trace r) (S i) = Some (WriteText p data answer) ->
  nth_error (trace r) i = Some (Mkdir (parent p) None).
Proof. exact (proj2 (follows_mkdir_first _ _ _ followed) i p data answer). Qed.

End Outcomes.


Lemma status_zero_means_all_done_witness :
  spawned (trace Sample.good) = command_chain "3.12"
  /\ printed (trace Sample.good) = success_lines Sample.dir "sample" "3.12".
Proof.
  refine (proj2 (status_zero_means_all_done
                   Machine.machine Sample.dir "sample" "3.12" ""
                   Machine.fresh _)).
  vm_compute. reflexivity.
Defined.

Lemma world_exception_is_fatal_witness :
  outcome Sample.without_uv = Raise (PyError "FileNotFoundError")
  /\ spawned (trace Sample.without_uv) = [["uv"; "venv"; "--python"; "3.12"]].
Proof.
  split; [|vm_compute; reflexivity].
  refine (proj1 (proj2 (world_exception_is_fatal
                          Machine.machine Sample.dir "sample" "3.12" ""
                          Machine.bare
                          (firstn 33 (trace Sample.without_uv))
                          (Spawn ["uv"; "venv"; "--python"; "3.12"]
                             Sample.dir (inl (PyError "FileNotFoundError")))
                          [] (PyError "FileNotFoundError") _ _)));
    vm_compute; reflexivity.
Defined.

Lemma commands_run_in_project_dir_witness :
  In Sample.pyright (command_chain "3.12").
Proof.
  refine (proj2 (commands_run_in_project_dir
                   Machine.machine Sample.dir "sample" "3.12" ""
                   Machine.broken_types
                   Sample.pyright Sample.dir (inr Sample.pyright_answer) _)).
  vm_compute. find_in_list.
Defined.

Lemma commands_start_after_rendering_witness :
  written (firstn 33 (trace Sample.good))
  = rendered_files Sample.dir "sample" "3.12" "".
Proof.
  refine (proj1 (commands_start_after_rendering
                   Machine.machine Sample.dir "sample" "3.12" ""
                   Machine.fresh
                   (firstn 33 (trace Sample.good))
                   ["uv"; "venv"; "--python"; "3.12"] Sample.dir
                   (inr Machine.succeed)
                   (skipn 34 (trace Sample.good)) _)).
  vm_compute. reflexivity.
Defined.

Lemma write_follows_mkdir_witness :
  nth_error (trace Sample.good) 5 = Some (Mkdir Sample.dir None).
Proof.
  refine (write_follows_mkdir
            Machine.machine Sample.dir "sample" "3.12" "" Machine.fresh
            5 (Sample.dir / "pyproject.toml")
            (snd (nth 0 (written (trace Sample.good)) ([], ""))) None _).
  vm_compute. reflexivity.
Defined.

(** ** More on the package name and the version tag *)




(** [python_version.replace('.', '')] (line 68): no dot is left, and a
    version without a dot is unchanged. *)
Theorem version_tag_has_no_dot (python_version : string) :
  all_chars (fun c => negb (Ascii.eqb c ".")) (replace "." "" python_version)
  = true
  /\ (all_chars (fun c => negb (Ascii.eqb c ".")) python_version = true ->
      replace "." "" python_version = python_version).
Proof.
  unfold replace.
  assert (Step : forall c s,
             replace_from "." "" 0 (String c s)
             = if Ascii.eqb c "." then replace_from "." "" 0 s
               else String c (replace_from "." "" 0 s)).
  { intros c s. cbn [replace_from prefix String.length Nat.sub].
    destruct (ascii_dec "." c) as [<-|N].
    - now rewrite prefix_empty.
    - destruct (Ascii.eqb_spec c ".") as [->|_]; [contradiction|reflexivity]. }
  split.
  - induction python_version as [|c s IH]; [reflexivity|].
    rewrite Step. destruct (Ascii.eqb c ".") eqn:E; [exact IH|].
    cbn [all_chars]. now rewrite E, IH.
  - induction python_version as [|c s IH]; [reflexivity|].
    cbn [all_chars]. intros H. apply andb_true_iff in H as [Hc Hs].
    apply negb_true_iff in Hc. rewrite Step, Hc. now rewrite (IH Hs).
Qed.

Lemma version_tag_has_no_dot_witness :
  replace "." "" "312" = "312" /\ replace "." "" "3.12" = "312".
Proof.
  split; [|reflexivity].
  exact (proj2 (version_tag_has_no_dot "312") eq_refl).
Defined.

(** ** What [create_file] writes, line by line *)

Lemma split_on_lines (sep : ascii) (s : string) :
  split_on sep s <> []
  /\ forallb (all_chars (fun c => negb (Ascii.eqb c sep))) (split_on sep s)
     = true.
Proof.
  induction s as [|c s [IHn IHl]]; [split; [discriminate | reflexivity]|].
  cbn [split_on]. destruct (Ascii.eqb c sep) eqn:E.
  - split; [discriminate|]. cbn. exact IHl.
  - destruct (split_on sep s) as [|l ls]; [contradiction|].
    split; [discriminate|]. cbn in IHl |- *. now rewrite E.
Qed.

Lemma all_chars_drop (q : ascii -> bool) (n : nat) (s : string) :
  all_chars q s = true -> all_chars q (drop n s) = true.
Proof.
  revert s. induction n as [|n IH]; intros s H; [exact H|].
  destruct s as [|c s]; [reflexivity|]. cbn in H |- *.
  apply andb_true_iff in H as [_ H]. now apply IH.
Qed.

Lemma all_chars_lstrip (q : ascii -> bool) (s : string) :
  all_chars q s = true -> all_chars q (lstrip s) = true.
Proof.
  induction s as [|c s IH]; [reflexivity|]. intros H. cbn [lstrip].
  destruct (isspace_char c); [|exact H].
  cbn in H. apply andb_true_iff in H as [_ H]. now apply IH.
Qed.

Lemma common_prefix_chars (q : ascii -> bool) (a b : string) :
  all_chars q a = true -> all_chars q (common_prefix a b) = true.
Proof.
  revert b. induction a as [|x a IH]; intros b H; [reflexivity|].
  destruct b as [|y b]; [reflexivity|]. cbn in H |- *.
  apply andb_true_iff in H as [Hx Ha].
  destruct (Ascii.eqb x y); [|reflexivity].
  cbn. now rewrite Hx, IH.
Qed.

Lemma leading_whitespace_blank (l : string) :
  whitespace_only (leading_whitespace l) = true.
Proof.
  unfold whitespace_only. induction l as [|c l IH]; [reflexivity|].
  cbn. destruct (is_blank_char c) eqn:B; [|reflexivity].
  cbn. now rewrite B.
Qed.

(** The margin [dedent] settles on is made of spaces and tabs. *)
Lemma margin_blank (indents : list string) (start : option string) :
  Forall (fun i => whitespace_only i = true) indents ->
  match start with Some m => whitespace_only m = true | None => True end ->
  match fold_left update_margin indents start with
  | Some m => whitespace_only m = true
  | None => True
  end.
Proof.
  intros F. revert start. induction F as [|i indents Hi _ IH]; intros start S;
    [exact S|].
  cbn [fold_left]. apply IH. destruct start as [m|]; cbn; [|exact Hi].
  destruct (startswith i m); [exact S|].
  destruct (startswith m i); [exact Hi|].
  now apply common_prefix_chars.
Qed.

Lemma remove_margin_empty (l : string) : remove_margin "" l = l.
Proof. unfold remove_margin, startswith. now rewrite prefix_empty. Qed.

(** [dedent] works line by line with one margin of spaces and tabs. *)
Lemma dedent_by_line (text : string) :
  exists margin,
    whitespace_only margin = true
    /\ dedent text
       = join nl (map (fun l => remove_margin margin (blank_out l))
                    (split_on newline text)).
Proof.
  unfold dedent.
  pose proof (margin_blank
                (map leading_whitespace
                   (filter has_text (map blank_out (split_on newline text))))
                None) as B.
  destruct (fold_left update_margin _ None) as [[|c m]|].
  - exists "". split; [reflexivity|]. f_equal.
    apply map_ext. intros l. now rewrite remove_margin_empty.
  - exists (String c m). split.
    + apply B; [|exact I]. apply Forall_forall. intros i Hi.
      apply in_map_iff in Hi as (l & <- & _).
      apply leading_whitespace_blank.
    + now rewrite map_map.
  - exists "". split; [reflexivity|]. f_equal.
    apply map_ext. intros l. now rewrite remove_margin_empty.
Qed.

(** A line as [dedent] leaves it holds no line break and, if it is blank,
    is empty. *)
Lemma dedented_line_settled (margin l : string) :
  whitespace_only margin = true ->
  no_newline l = true ->
  no_newline (remove_margin margin (blank_out l)) = true
  /\ blank_out (remove_margin margin (blank_out l))
     = remove_margin margin (blank_out l).
Proof.
  intros M N. destruct (whitespace_only l) eqn:B.
  - assert (K : blank_out l = "") by (unfold blank_out; now rewrite B).
    assert (E : remove_margin margin "" = "").
    { unfold remove_margin. destruct (startswith "" margin); [|reflexivity].
      now destruct (String.length margin). }
    rewrite K, E. split; reflexivity.
  - assert (K : blank_out l = l) by (unfold blank_out; now rewrite B).
    rewrite K. unfold remove_margin, startswith.
    destruct (prefix margin l) eqn:P.
    + split; [now apply all_chars_drop|].
      rewrite (prefix_drop _ _ P) in B.
      unfold whitespace_only in B. rewrite all_chars_append in B.
      fold (whitespace_only margin) in B. rewrite M in B. cbn in B.
      unfold blank_out, whitespace_only. now rewrite B.
    + split; [exact N|exact K].
Qed.

Lemma lstrip_spaces (l x : string) :
  all_chars isspace_char l = true -> lstrip (l ++ x) = lstrip x.
Proof.
  induction l as [|c l IH]; [reflexivity|]. cbn. intros H.
  apply andb_true_iff in H as [-> H]. now apply IH.
Qed.

Lemma lstrip_text_append (l x : string) :
  all_chars isspace_char l = false ->
  lstrip (l ++ x) = lstrip l ++ x /\ starts_with_text (lstrip l) = true.
Proof.
  induction l as [|c l IH]; [discriminate|]. cbn.
  destruct (isspace_char c) eqn:S; cbn; [exact IH|].
  intros _. now rewrite S.
Qed.

Lemma lstrip_all_spaces (l : string) :
  all_chars isspace_char l = true -> lstrip l = "".
Proof.
  intros H. rewrite <- (append_empty_r l). now rewrite lstrip_spaces.
Qed.

(** Stripping the front of settled lines leaves nothing, or lines that
    begin with text and are settled still. *)
Lemma lstrip_join_shape (l : string) (ls : list string) :
  forallb no_newline (l :: ls) = true ->
  Forall (fun x => blank_out x = x) ls ->
  lstrip (join nl (l :: ls)) = ""
  \/ exists head rest,
      lstrip (join nl (l :: ls)) = join nl (head :: rest)
      /\ starts_with_text head = true
      /\ forallb no_newline (head :: rest) = true
      /\ Forall (fun x => blank_out x = x) rest.
Proof.
  revert l. induction ls as [|l' ls IH]; intros l N S.
  - cbn [join String.concat].
    destruct (all_chars isspace_char l) eqn:A.
    + left. now apply lstrip_all_spaces.
    + right. exists (lstrip l), [].
      destruct (lstrip_text_append l "" A) as [_ T].
      cbn in N. rewrite andb_true_r in N.
      repeat split; [exact T | | constructor].
      cbn. rewrite andb_true_r. now apply all_chars_lstrip.
  - cbn [forallb] in N. apply andb_true_iff in N as [Nl N].
    change (join nl (l :: l' :: ls))
      with (l ++ String newline (join nl (l' :: ls))).
    destruct (all_chars isspace_char l) eqn:A.
    + rewrite (lstrip_spaces _ _ A).
      change (lstrip (String newline (join nl (l' :: ls))))
        with (lstrip (join nl (l' :: ls))).
      apply IH; [exact N | now inversion S].
    + right. exists (lstrip l), (l' :: ls).
      destruct (lstrip_text_append l (String newline (join nl (l' :: ls))) A)
        as [E T].
      rewrite E. split.
      { destruct (lstrip l) as [|c s]; [discriminate T | reflexivity]. }
      split; [exact T|]. split; [|exact S].
      cbn [forallb]. rewrite N, andb_true_r. now apply all_chars_lstrip.
Qed.

(** Text that begins at the margin with settled lines is left as it is. *)
Lemma render_fixed (head : string) (rest : list string) :
  starts_with_text head = true ->
  forallb no_newline (head :: rest) = true ->
  Forall (fun x => blank_out x = x) rest ->
  lstrip (dedent (join nl (head :: rest))) = join nl (head :: rest).
Proof.
  intros T N S.
  rewrite (render_margin "" head rest eq_refl (prefix_empty head) T N).
  - f_equal. cbn [map]. f_equal.
    + destruct (text_not_blank _ T) as [B _].
      unfold dedented_line. now rewrite B.
    + rewrite <- (map_id rest) at 2. apply map_ext_in. intros x Hx.
      exact (proj1 (Forall_forall _ _) S x Hx).
  - apply forallb_forall. intros x _. unfold carries_margin, startswith.
    rewrite prefix_empty. apply orb_true_r.
Qed.

(** What [dedent] and [lstrip] make of a text is a fixed point of both and
    does not begin with white space. *)
Lemma render_idempotent (content : string) :
  let data := lstrip (dedent content) in
  lstrip (dedent data) = data
  /\ (data = "" \/ starts_with_text data = true).
Proof.
  cbv zeta. destruct (dedent_by_line content) as (margin & M & ->).
  destruct (split_on_lines newline content) as [Hne Hnl].
  destruct (split_on newline content) as [|l ls]; [contradiction|].
  cbn [map].
  assert (N : forallb no_newline
                (map (fun l => remove_margin margin (blank_out l)) (l :: ls))
              = true).
  { apply forallb_forall. intros x Hx.
    apply in_map_iff in Hx as (y & <- & Hy).
    apply dedented_line_settled; [exact M|].
    exact (proj1 (forallb_forall _ _) Hnl y Hy). }
  assert (S : Forall (fun x => blank_out x = x)
                (map (fun l => remove_margin margin (blank_out l)) ls)).
  { apply Forall_forall. intros x Hx.
    apply in_map_iff in Hx as (y & <- & Hy).
    apply dedented_line_settled; [exact M|].
    apply (proj1 (forallb_forall _ _) Hnl y). now right. }
  cbn [map] in N.
  destruct (lstrip_join_shape _ _ N S) as [-> | (head & rest & -> & T & N' & S')].
  - split; [reflexivity | now left].
  - split; [now apply render_fixed|]. right.
    now apply join_starts_with_text.
Qed.

Section Written.

Context {W : Type} (env : world W).
Variable path : Path.
Variable content : string.
Variable w : W.

Lemma create_file_data p data answer :
  In (WriteText p data answer) (trace (create_file env path content w)) ->
  p = path /\ data = lstrip (dedent content).
Proof.
  unfold create_file, bind, mkdir, write_text.
  destruct (path_mkdir env (parent path) w) as [[e|] w1]; cbn.
  { intros [I | []]. discriminate I. }
  destruct (path_write_text env path _ w1) as [[e|] w2]; cbn;
    intros I;
    repeat match type of I with
      | _ \/ _ => destruct I as [I | I]
      | False => contradiction
      end;
    try discriminate I;
    injection I as <- <- _; split; reflexivity.
Qed.

(** Whatever [create_file] writes is computed from the content line by
    line: blank lines are emptied, one margin of spaces and tabs is removed
    from the lines that start with it, and the white space in front of the
    whole is stripped; no line is added or reordered. *)
Theorem create_file_works_by_line p data answer :
  In (WriteText p data answer) (trace (create_file env path content w)) ->
  exists margin,
    whitespace_only margin = true
    /\ data
       = lstrip (join nl (map (fun l => remove_margin margin (blank_out l))
                            (lines content))).
Proof.
  intros I. apply create_file_data in I as [_ ->].
  destruct (dedent_by_line content) as (margin & M & E).
  exists margin. split; [exact M|]. now rewrite E.
Qed.

(** Whatever [create_file] writes does not begin with white space, and
    rendering it again gives the same bytes. *)
Theorem create_file_output_is_stable p data answer :
  In (WriteText p data answer) (trace (create_file env path content w)) ->
  lstrip (dedent data) = data
  /\ (data = "" \/ starts_with_text data = true).
Proof.
  intros I. apply create_file_data in I as [_ ->].
  apply render_idempotent.
Qed.

End Written.

Lemma create_file_works_by_line_witness :
  exists margin,
    whitespace_only margin = true
    /\ "x" = lstrip (join nl (map (fun l => remove_margin margin (blank_out l))
                               (lines Sample.two_blank_lines))).
Proof.
  refine (create_file_works_by_line
            Machine.machine Sample.notes Sample.two_blank_lines
            Machine.fresh Sample.notes "x" None _).
  vm_compute. find_in_list.
Defined.

Lemma create_file_output_is_stable_witness :
  lstrip (dedent "x") = "x".
Proof.
  refine (proj1 (create_file_output_is_stable
                   Machine.machine Sample.notes Sample.two_blank_lines
                   Machine.fresh Sample.notes "x" None _)).
  vm_compute. find_in_list.
Defined.

(** ** Reading the end of a run off its trace *)

Lemma follows_exit steps tr r code :
  follows steps tr r ->
  r = Exit code ->
  code = 1%Z
  /\ exists pre cmd cwd p,
      tr = (pre ++ Spawn cmd cwd (inr p) :: failure_report cmd p)%list
      /\ returncode p <> 0%Z.
Proof.
  induction 1 as [ | m rest tr r _ IH | q rest tr r _ IH | q e rest
                 | path content rest tr r _ IH | path content e rest
                 | path content e rest | cmd0 cwd0 q rest tr r Hz _ IH
                 | cmd0 cwd0 q rest Hnz | cmd0 cwd0 e rest ];
    intros E; try discriminate E;
    try (destruct (IH E) as (-> & pre & cmd & cwd & p & -> & NZ);
         split; [reflexivity|]).
  - now exists (Print m :: pre), cmd, cwd, p.
  - now exists (Mkdir q None :: pre), cmd, cwd, p.
  - now exists (Mkdir (parent path) None
                  :: WriteText path (lstrip (dedent content)) None
                  :: Print (MsgCreated path) :: pre), cmd, cwd, p.
  - now exists (Spawn cmd0 cwd0 (inr q) :: pre), cmd, cwd, p.
  - injection E as <-. split; [reflexivity|].
    now exists [], cmd0, cwd0, q.
Qed.

Lemma follows_raise steps tr r e :
  follows steps tr r ->
  r = Raise e ->
  exists pre ev, tr = (pre ++ [ev])%list /\ raised ev = Some e.
Proof.
  induction 1 as [ | m rest tr r _ IH | q rest tr r _ IH | q e0 rest
                 | path content rest tr r _ IH | path content e0 rest
                 | path content e0 rest | cmd0 cwd0 q rest tr r Hz _ IH
                 | cmd0 cwd0 q rest Hnz | cmd0 cwd0 e0 rest ];
    intros E; try discriminate E;
    try (destruct (IH E) as (pre & ev & -> & R)).
  - now exists (Print m :: pre), ev.
  - now exists (Mkdir q None :: pre), ev.
  - injection E as <-. now exists [], (Mkdir q (Some e0)).
  - now exists (Mkdir (parent path) None
                  :: WriteText path (lstrip (dedent content)) None
                  :: Print (MsgCreated path) :: pre), ev.
  - injection E as <-. now exists [], (Mkdir (parent path) (Some e0)).
  - injection E as <-.
    now exists [Mkdir (parent path) None],
               (WriteText path (lstrip (dedent content)) (Some e0)).
  - now exists (Spawn cmd0 cwd0 (inr q) :: pre), ev.
  - injection E as <-. now exists [], (Spawn cmd0 cwd0 (inl e0)).
Qed.

(** A run that ends through [sys.exit] ends with the report of a command
    that exited with a non-zero code, and the code it exits with is 1; a run
    that ends with an exception ends on the event the world answered with
    it. *)
Theorem ending_is_explained
        (W : Type) (env : world W) (w : W) (project_dir : Path)
        (project_name python_version description : string) :
  let r :=
    bootstrap env project_dir project_name python_version description w in
  (forall code,
      outcome r = Exit code ->
      code = 1%Z
      /\ exists pre cmd cwd p,
          trace r
          = (pre ++ [ Spawn cmd cwd (inr p);
                      Print (MsgCommandFailed (join " " cmd));
                      Print (MsgStderr (stderr p)) ])%list
          /\ returncode p <> 0%Z)
  /\ (forall e,
         outcome r = Raise e ->
         exists pre ev, trace r = (pre ++ [ev])%list /\ raised ev = Some e).
Proof.
  cbv zeta.
  pose proof (bootstrap_follows env project_dir project_name python_version
                description w) as F. cbv zeta in F.
  split.
  - intros code E. exact (follows_exit _ _ _ _ F E).
  - intros e E. exact (follows_raise _ _ _ _ F E).
Qed.

Lemma ending_is_explained_witness :
  (exists pre ev,
      trace Sample.refused = (pre ++ [ev])%list
      /\ raised ev = Some (PyError "PermissionError"))
  /\ exists pre cmd cwd p,
      trace Sample.ill_typed
      = (pre ++ [ Spawn cmd cwd (inr p);
                  Print (MsgCommandFailed (join " " cmd));
                  Print (MsgStderr (stderr p)) ])%list
      /\ returncode p <> 0%Z.
Proof.
  split.
  - refine (proj2 (ending_is_explained
                     _ Machine.machine Machine.locked Sample.dir
                     "sample" "3.12" "") (PyError "PermissionError") _).
    vm_compute. reflexivity.
  - refine (proj2 (proj1 (ending_is_explained
                            _ Machine.machine Machine.broken_types
                            Sample.dir "sample" "3.12" "") 1%Z _)).
    vm_compute. reflexivity.
Defined.

(** ** Where the files go *)

Lemma path_eqb_eq (p q : Path) : path_eqb p q = true -> p = q.
Proof.
  unfold path_eqb. destruct (list_eq_dec string_dec p q); congruence.
Qed.

Lemma plain_name_identifier (name : string) :
  plain_project_name name = true ->
  is_identifier (package_name name) = true.
Proof.
  intros H. rewrite package_name_map. destruct name as [|c s];
    [discriminate H|].
  cbn [plain_project_name] in H. apply andb_true_iff in H as [Hc Hs].
  cbn [map_chars is_identifier]. rewrite (name_start_normalised c Hc).
  rewrite all_chars_map. cbn [andb].
  revert Hs. apply all_chars_impl. exact name_char_normalised.
Qed.

Lemma identifier_one_part (s : string) :
  is_identifier s = true ->
  parse_parts s = [s] /\ startswith s "/" = false.
Proof.
  intros I. pose proof (identifier_path_safe s I) as P.
  unfold path_safe in P.
  apply andb_true_iff in P as [P _]. apply andb_true_iff in P as [P A].
  split; [now apply path_eqb_eq | now apply negb_true_iff].
Qed.

Lemma identifier_start_is_char (c : ascii) :
  is_identifier_start c = true -> is_identifier_char c = true.
Proof. unfold is_identifier_char. now intros ->. Qed.

Lemma test_module_one_part (package : string) :
  is_identifier package = true ->
  parse_parts ("test_" ++ package ++ ".py") = ["test_" ++ package ++ ".py"].
Proof.
  intros I. unfold parse_parts.
  rewrite split_on_no_separator.
  - reflexivity.
  - rewrite !all_chars_append.
    destruct package as [|c s]; [discriminate I|].
    cbn [is_identifier] in I. apply andb_true_iff in I as [Hc Hs].
    cbn. rewrite (identifier_char_no_slash c (identifier_start_is_char c Hc)).
    cbn. rewrite andb_true_r.
    revert Hs. apply all_chars_impl. intros a Ha.
    now rewrite (identifier_char_no_slash a Ha).
Qed.

(** With a plain project name, the declared files are the layout below the
    target directory. *)
Lemma plain_name_files (project_dir : Path) (name : string) :
  plain_project_name name = true ->
  declared_files project_dir name
  = map (app project_dir) (package_layout (package_name name)).
Proof.
  intros H. pose proof (plain_name_identifier name H) as I.
  destruct (identifier_one_part _ I) as [P A].
  rewrite (declared_files_below _ _ A), P, (test_module_one_part _ I).
  reflexivity.
Qed.

Lemma name_char_no_slash (c : ascii) :
  is_name_char c = true -> Ascii.eqb c "/" = false.
Proof. each_char c. Qed.

Lemma name_start_plain (c : ascii) :
  is_name_start c = true ->
  Ascii.eqb c "/" = false /\ Ascii.eqb c "." = false.
Proof. each_char c. Qed.

Lemma plain_name_one_part (name : string) :
  plain_project_name name = true ->
  parse_parts name = [name] /\ startswith name "/" = false.
Proof.
  destruct name as [|c s]; [discriminate|]. cbn [plain_project_name].
  intros H. apply andb_true_iff in H as [Hc Hs].
  destruct (name_start_plain c Hc) as [Hslash Hdot].
  split.
  - unfold parse_parts. rewrite split_on_no_separator.
    + cbn [filter]. unfold keep_part. cbn [String.eqb]. now rewrite Hdot.
    + cbn [all_chars]. rewrite Hslash. cbn.
      revert Hs. apply all_chars_impl. intros a Ha.
      now rewrite (name_char_no_slash a Ha).
  - unfold startswith. cbn [prefix].
    destruct (ascii_dec "/" c) as [<-|_]; [discriminate Hslash|reflexivity].
Qed.

Section Layout.

Context {W : Type} (env : world W).
Variables project_name python_version description : string.
Variable w : W.

(** With a plain project name and nothing refused, [bootstrap] writes the
    nine files of the layout below the project directory, the package
    directory being [src/<package name>]. *)
Theorem plain_name_layout (project_dir : Path) :
  plain_project_name project_name = true ->
  forallb fs_granted
    (trace (bootstrap env project_dir project_name python_version
              description w)) = true ->
  map fst
    (written (trace (bootstrap env project_dir project_name python_version
                       description w)))
  = map (app project_dir) (package_layout (package_name project_name)).
Proof.
  intros H G. rewrite (rendered_complete env _ _ _ _ _ G).
  rewrite rendered_files_paths. now apply plain_name_files.
Qed.

(** Unless the project name starts with a slash, every file [bootstrap]
    writes lies below the project directory. *)
Theorem writes_stay_below_project_dir (project_dir : Path) p data :
  startswith (package_name project_name) "/" = false ->
  In (p, data)
     (written (trace (bootstrap env project_dir project_name python_version
                        description w))) ->
  exists below, below <> [] /\ p = (project_dir ++ below)%list.
Proof.
  intros A I.
  destruct (rendered_prefix env project_dir project_name python_version
              description w) as [rest E].
  assert (Ip : In p (declared_files project_dir project_name)).
  { rewrite <- (rendered_files_paths project_dir project_name
                  python_version description), E, map_app.
    apply in_or_app. left.
    change p with (fst (p, data)). now apply in_map. }
  rewrite (declared_files_below _ _ A) in Ip.
  apply in_map_iff in Ip as (below & <- & Ib).
  exists below. split; [|reflexivity].
  cbn [In] in Ib.
  repeat match type of Ib with
    | _ \/ _ => destruct Ib as [Ib | Ib]
    | False => contradiction
    end; subst below; discriminate.
Qed.

(** Run from the command line with a plain project name and no [--dir], the
    script writes the layout below the directory that the project name
    itself resolves to; the package directory carries the package name. *)
Theorem main_layout (resolve : Entry.PurePath -> Path) :
  plain_project_name project_name = true ->
  let r := Entry.main env resolve (Entry.defaults project_name) w in
  forallb fs_granted (trace r) = true ->
  map fst (written (trace r))
  = map (app (resolve {| Entry.anchored := false;
                         Entry.parts := [project_name] |}))
      (package_layout (package_name project_name)).
Proof.
  intros H r G. subst r. unfold Entry.main in *.
  cbn [Entry.defaults Entry.project_name Entry.python Entry.description]
    in *.
  assert (T : Entry.target_dir (Entry.defaults project_name)
              = {| Entry.anchored := false;
                   Entry.parts := [project_name] |}).
  { destruct (plain_name_one_part _ H) as [P A].
    unfold Entry.target_dir, Entry.pure_path, Entry.defaults.
    cbn [Entry.dir Entry.project_name]. now rewrite P, A. }
  rewrite T in *.
  rewrite (rendered_complete env _ _ _ _ _ G).
  rewrite rendered_files_paths. now apply plain_name_files.
Qed.

(** An absolute project name is the target directory whatever [--dir] says,
    and an empty [--dir] counts as none: in both cases the run is the run
    without [--dir]. *)
Theorem main_ignores_dir (resolve : Entry.PurePath -> Path)
        (args : Entry.Namespace) :
  startswith (Entry.project_name args) "/" = true
  \/ Entry.dir args = Some "" ->
  Entry.main env resolve args w
  = Entry.main env resolve
      {| Entry.project_name := Entry.project_name args;
         Entry.dir := None;
         Entry.python := Entry.python args;
         Entry.description := Entry.description args |} w.
Proof.
  intros H. unfold Entry.main. cbn.
  replace (Entry.target_dir args)
    with (Entry.pure_path (Entry.project_name args)); [reflexivity|].
  unfold Entry.target_dir.
  destruct (Entry.dir args) as [d|]; [|reflexivity].
  destruct (String.eqb_spec d "") as [->|N]; [reflexivity|].
  destruct H as [A | E]; [|injection E as ->; contradiction].
  unfold Entry.pure_truediv. now rewrite A.
Qed.

End Layout.

Lemma plain_name_layout_witness :
  map fst (written (trace Sample.good))
  = map (app Sample.dir) (package_layout "sample").
Proof.
  refine (plain_name_layout
            Machine.machine "sample" "3.12" "" Machine.fresh Sample.dir _ _);
    vm_compute; reflexivity.
Defined.

Lemma writes_stay_below_project_dir_witness :
  exists below,
    below <> [] /\ Sample.dir / "README.md" = (Sample.dir ++ below)%list.
Proof.
  refine (writes_stay_below_project_dir
            Machine.machine "sample" "3.12" "" Machine.fresh Sample.dir
            (Sample.dir / "README.md")
            (snd (nth 8 (written (trace Sample.good)) ([], ""))) _ _).
  - vm_compute. reflexivity.
  - vm_compute. find_in_list.
Defined.

Lemma main_layout_witness :
  map fst (written (trace Shell.from_shell))
  = map (app ["home"; "dev"; "My-Cool-Tool"]) (package_layout "my_cool_tool").
Proof.
  refine (main_layout
            Machine.machine "My-Cool-Tool" Machine.fresh
            (Entry.resolve_below ["home"; "dev"]) _ _);
    vm_compute; reflexivity.
Defined.

Lemma main_ignores_dir_witness :
  outcome (Entry.main Machine.machine (Entry.resolve_below ["home"; "dev"])
             Shell.absolute_args Machine.fresh)
  = outcome (Entry.main Machine.machine
               (Entry.resolve_below ["home"; "dev"])
               {| Entry.project_name := "/srv/app";
                  Entry.dir := None;
                  Entry.python := "3.12";
                  Entry.description := "" |} Machine.fresh).
Proof.
  refine (f_equal outcome
            (main_ignores_dir
               Machine.machine Machine.fresh
               (Entry.resolve_below ["home"; "dev"])
               Shell.absolute_args _)).
  left. reflexivity.
Defined.
